(** * Parser schemas for DynamoDB stream events, and the envelope boundary

    A shallow embedding of [packages/parser/src/schemas/dynamodb.ts]:
    the stream schemas, the [unmarshallDynamoDBTransform] hook and the
    parts of the validation library (zod 4) that these schemas use.
    JavaScript values are trees; objects are association lists, because
    key order decides the order in which issues are reported. *)

From Stdlib Require Import ZArith String Ascii List Lia.
From stdpp Require Import base option list strings.
Import ListNotations.

Local Open Scope string_scope.
Local Open Scope list_scope.

Set Warnings "-register-all".

(** ** JavaScript values *)

(** Numbers are represented by integers: the events and claims handled
    here carry no fractional, infinite or NaN numbers. *)
Inductive value : Type :=
| VUndefined
| VNull
| VBool (b : bool)
| VNum (n : Z)
| VStr (s : string)
| VBin (s : string)
| VSet (xs : list value)
| VArr (xs : list value)
| VObj (fields : list (string * value)).

Definition fields := list (string * value).

(** [input[key]]: the first binding of [key], [undefined] when absent. *)
Fixpoint obj_get (k : string) (fs : fields) : value :=
  match fs with
  | [] => VUndefined
  | (k', v) :: rest => if String.eqb k k' then v else obj_get k rest
  end.

(** [key in input] *)
Fixpoint obj_has (k : string) (fs : fields) : bool :=
  match fs with
  | [] => false
  | (k', _) :: rest => if String.eqb k k' then true else obj_has k rest
  end.

(** [obj[key] = v]: an existing key keeps its position, a new one is appended. *)
Fixpoint obj_set (k : string) (v : value) (fs : fields) : fields :=
  match fs with
  | [] => [(k, v)]
  | (k', v') :: rest =>
      if String.eqb k k' then (k', v) :: rest else (k', v') :: obj_set k v rest
  end.

Definition obj_keys (fs : fields) : list string := map fst fs.

(** [delete obj[key]] *)
Fixpoint obj_remove (k : string) (fs : fields) : fields :=
  match fs with
  | [] => []
  | (k', v) :: rest =>
      if String.eqb k k' then obj_remove k rest else (k', v) :: obj_remove k rest
  end.

(** JavaScript truthiness, as used by [if (object.NewImage)]. *)
Definition truthy (v : value) : bool :=
  match v with
  | VUndefined | VNull => false
  | VBool b => b
  | VNum n => negb (Z.eqb n 0)
  | VStr s => negb (String.eqb s "")
  | VBin _ | VSet _ | VArr _ | VObj _ => true
  end.

(** The name zod prints for the type of a received value. *)
Definition typeName (v : value) : string :=
  match v with
  | VUndefined => "undefined"
  | VNull => "null"
  | VBool _ => "boolean"
  | VNum _ => "number"
  | VStr _ => "string"
  | VBin _ => "Uint8Array"
  | VSet _ => "Set"
  | VArr _ => "array"
  | VObj _ => "object"
  end.

(** ** Issues

    An issue has a code, a message and a path from the root of the
    validated value.  The messages of the library's own issues are
    rendered without quotation marks around literals. *)

Inductive seg : Type :=
| Key (k : string)
| Idx (i : nat).

Record issue : Type := mkIssue {
  code : string;
  expected : option string;
  message : string;
  path : list seg;
  fatal : bool
}.

Definition prefixIssue (p : seg) (i : issue) : issue :=
  mkIssue (code i) (expected i) (message i) (p :: path i) (fatal i).

(** zod's [prefixIssues(key, issues)] *)
Definition prefixIssues (p : seg) (iss : list issue) : list issue :=
  map (prefixIssue p) iss.

Definition invalid_type (exp : string) (v : value) : issue :=
  mkIssue "invalid_type" (Some exp)
    ("Invalid input: expected " ++ exp ++ ", received " ++ typeName v) [] false.

Definition invalid_value (msg : string) : issue :=
  mkIssue "invalid_value" None msg [] false.

Definition invalid_format (fmt : string) : issue :=
  mkIssue "invalid_format" None ("Invalid " ++ fmt) [] false.

Definition too_small : issue :=
  mkIssue "too_small" None "Too small: expected array to have >=1 items" [] false.

Definition unrecognized_keys (ks : list string) : issue :=
  mkIssue "unrecognized_keys" None
    ("Unrecognized key(s): " ++ String.concat ", " ks) [] false.

(** The result of running a schema: the output value, or the issues.
    A failure always carries at least one issue. *)
Inductive parsed : Type :=
| Valid (v : value)
| Invalid (first : issue) (others : list issue).

Definition is_valid (r : parsed) : bool :=
  match r with Valid _ => true | Invalid _ _ => false end.

Definition issues_of (r : parsed) : list issue :=
  match r with Valid _ => [] | Invalid i others => i :: others end.

(** ** Schemas of the validation library

    The constructors that [schemas/dynamodb.ts] and the tests use.
    [SRecord v] is [z.record(z.string(), v)]: every string key passes the
    key schema.  [SArray e true] is [z.array(e).nonempty()].
    [SObject shape true] is [z.object(shape).strict()].  [STransform s f]
    is [s.transform(f)], with the hook seen as a function from the
    validated value to a result. *)

Inductive schema : Type :=
| SString
| SNumber
| SBoolean
| SAny
| SEnum (options : list string)
| SLiteral (lit : string)
| SIsoDatetime
| SRecord (valueType : schema)
| SArray (element : schema) (nonempty : bool)
| SObject (shape : list (string * schema)) (strict : bool)
| SOptional (inner : schema)
| SNullish (inner : schema)
| STransform (inner : schema) (fn : value -> parsed).

Definition shape := list (string * schema).

Fixpoint inb (s : string) (l : list string) : bool :=
  match l with
  | [] => false
  | x :: rest => if String.eqb s x then true else inb s rest
  end.

(** Closes an object or record result: the assembled output when no
    field reported an issue, all the issues otherwise. *)
Definition finish (iss : list issue) (out : fields) : parsed :=
  match iss with
  | [] => Valid (VObj out)
  | i :: others => Invalid i others
  end.

Definition finishArr (iss : list issue) (out : list value) : parsed :=
  match iss with
  | [] => Valid (VArr out)
  | i :: others => Invalid i others
  end.

(** zod's [handlePropertyResult]: issues are prefixed with the key; an
    [undefined] result is written only when the key is in the input. *)
Definition handlePropertyResult (k : string) (input : fields) (r : parsed)
    (acc : list issue * fields) : list issue * fields :=
  match r with
  | Invalid i others => (prefixIssues (Key k) (i :: others) ++ fst acc, snd acc)
  | Valid VUndefined =>
      (fst acc, if obj_has k input then (k, VUndefined) :: snd acc else snd acc)
  | Valid w => (fst acc, (k, w) :: snd acc)
  end.

Definition handleElementResult (p : seg) (r : parsed)
    (acc : list issue * list value) : list issue * list value :=
  match r with
  | Invalid i others => (prefixIssues p (i :: others) ++ fst acc, snd acc)
  | Valid w => (fst acc, w :: snd acc)
  end.

Definition handleEntryResult (k : string) (r : parsed)
    (acc : list issue * fields) : list issue * fields :=
  match r with
  | Invalid i others => (prefixIssues (Key k) (i :: others) ++ fst acc, snd acc)
  | Valid w => (fst acc, (k, w) :: snd acc)
  end.

Section Zod.

(** The library's ISO date-time format check, taken as given. *)
Variable isoDatetime : string -> bool.

Fixpoint run (s : schema) (v : value) {struct s} : parsed :=
  match s with
  | SString =>
      match v with VStr _ => Valid v | _ => Invalid (invalid_type "string" v) [] end
  | SNumber =>
      match v with VNum _ => Valid v | _ => Invalid (invalid_type "number" v) [] end
  | SBoolean =>
      match v with VBool _ => Valid v | _ => Invalid (invalid_type "boolean" v) [] end
  | SAny => Valid v
  | SEnum opts =>
      match v with
      | VStr x =>
          if inb x opts then Valid v
          else Invalid (invalid_value
                 ("Invalid option: expected one of " ++ String.concat "|" opts)) []
      | _ => Invalid (invalid_value
               ("Invalid option: expected one of " ++ String.concat "|" opts)) []
      end
  | SLiteral lit =>
      match v with
      | VStr x =>
          if String.eqb x lit then Valid v
          else Invalid (invalid_value ("Invalid input: expected " ++ lit)) []
      | _ => Invalid (invalid_value ("Invalid input: expected " ++ lit)) []
      end
  | SIsoDatetime =>
      match v with
      | VStr x =>
          if isoDatetime x then Valid v else Invalid (invalid_format "ISO datetime") []
      | _ => Invalid (invalid_type "string" v) []
      end
  | SRecord vt =>
      match v with
      | VObj fs =>
          let acc :=
            (fix entries (l : fields) : list issue * fields :=
               match l with
               | [] => ([], [])
               | (k, x) :: rest => handleEntryResult k (run vt x) (entries rest)
               end) fs in
          finish (fst acc) (snd acc)
      | _ => Invalid (invalid_type "record" v) []
      end
  | SArray el ne =>
      match v with
      | VArr xs =>
          let acc :=
            (fix elements (i : nat) (l : list value) : list issue * list value :=
               match l with
               | [] => ([], [])
               | x :: rest =>
                   handleElementResult (Idx i) (run el x) (elements (S i) rest)
               end) 0%nat xs in
          match fst acc, ne, xs with
          | [], true, [] => Invalid too_small []
          | _, _, _ => finishArr (fst acc) (snd acc)
          end
      | _ => Invalid (invalid_type "array" v) []
      end
  | SObject sh strict =>
      match v with
      | VObj fs =>
          let acc :=
            (fix props (l : shape) : list issue * fields :=
               match l with
               | [] => ([], [])
               | (k, sk) :: rest =>
                   handlePropertyResult k fs (run sk (obj_get k fs)) (props rest)
               end) sh in
          let extra :=
            filter (fun k => negb (inb k (map fst sh))) (obj_keys fs) in
          match strict, extra with
          | true, _ :: _ =>
              match fst acc with
              | [] => Invalid (unrecognized_keys extra) []
              | i :: others => Invalid i (others ++ [unrecognized_keys extra])
              end
          | _, _ => finish (fst acc) (snd acc)
          end
      | _ => Invalid (invalid_type "object" v) []
      end
  | SOptional inner =>
      match v with VUndefined => Valid VUndefined | _ => run inner v end
  | SNullish inner =>
      match v with
      | VUndefined => Valid VUndefined
      | VNull => Valid VNull
      | _ => run inner v
      end
  | STransform inner fn =>
      match run inner v with
      | Valid w => fn w
      | Invalid i others => Invalid i others
      end
  end.

(** The three loops of [run], named so that they can be reasoned about. *)
Definition entries (vt : schema) : fields -> list issue * fields :=
  fix entries (l : fields) : list issue * fields :=
    match l with
    | [] => ([], [])
    | (k, x) :: rest => handleEntryResult k (run vt x) (entries rest)
    end.

Definition elements (el : schema) : nat -> list value -> list issue * list value :=
  fix elements (i : nat) (l : list value) : list issue * list value :=
    match l with
    | [] => ([], [])
    | x :: rest => handleElementResult (Idx i) (run el x) (elements (S i) rest)
    end.

Definition props (fs : fields) : shape -> list issue * fields :=
  fix props (l : shape) : list issue * fields :=
    match l with
    | [] => ([], [])
    | (k, sk) :: rest =>
        handlePropertyResult k fs (run sk (obj_get k fs)) (props rest)
    end.

End Zod.

(** zod's [.omit({k: true, ...})] and [.extend({...})] on object schemas.
    [extend] is [{...shape, ...newShape}]: an overridden key keeps its
    position, a new key goes last. *)
Definition omit (ks : list string) (s : schema) : schema :=
  match s with
  | SObject sh strict =>
      SObject (filter (fun kv => negb (inb (fst kv) ks)) sh) strict
  | _ => s
  end.

Fixpoint shape_set (k : string) (sk : schema) (sh : shape) : shape :=
  match sh with
  | [] => [(k, sk)]
  | (k', s') :: rest =>
      if String.eqb k k' then (k', sk) :: rest else (k', s') :: shape_set k sk rest
  end.

Definition extend (ext : shape) (s : schema) : schema :=
  match s with
  | SObject sh strict =>
      SObject (fold_left (fun acc kv => shape_set (fst kv) (snd kv) acc) ext sh) strict
  | _ => s
  end.

(** ** The structured-value codec *)

Section Codec.

(** The numeric policy: how the string payload of an ["N"] tag becomes
    a number ([None] when the string is not numeric). *)
Variable convertNumber : string -> option Z.

Definition asString (v : value) : option string :=
  match v with VStr s => Some s | _ => None end.

(** Modelled from the spec: the codec's [decode] of
    [@aws-lambda-powertools/commons/utils/unmarshallDynamoDB], which is
    not part of the sources at hand.  A structured value is a map with
    exactly one kind tag; decoding fails on zero or several tags, on an
    unknown tag and on a payload of the wrong shape; lists and maps
    recurse, sets decode their primitive members. *)
Fixpoint decode (v : value) : option value :=
  match v with
  | VObj [(tag, payload)] =>
      if String.eqb tag "S" then VStr <$> asString payload
      else if String.eqb tag "N" then
        s ← asString payload; VNum <$> convertNumber s
      else if String.eqb tag "BOOL" then
        match payload with VBool b => Some (VBool b) | _ => None end
      else if String.eqb tag "NULL" then
        match payload with VBool _ => Some VNull | _ => None end
      else if String.eqb tag "B" then VBin <$> asString payload
      else if String.eqb tag "L" then
        match payload with
        | VArr xs =>
            VArr <$>
              (fix items (l : list value) : option (list value) :=
                 match l with
                 | [] => Some []
                 | x :: rest =>
                     y ← decode x; ys ← items rest; Some (y :: ys)
                 end) xs
        | _ => None
        end
      else if String.eqb tag "M" then
        match payload with
        | VObj fs =>
            VObj <$>
              (fix entries (l : fields) : option fields :=
                 match l with
                 | [] => Some []
                 | (k, x) :: rest =>
                     y ← decode x; ys ← entries rest; Some ((k, y) :: ys)
                 end) fs
        | _ => None
        end
      else if String.eqb tag "SS" then
        match payload with
        | VArr xs => VSet <$> mapM (fun x => VStr <$> asString x) xs
        | _ => None
        end
      else if String.eqb tag "NS" then
        match payload with
        | VArr xs =>
            VSet <$> mapM (fun x => s ← asString x; VNum <$> convertNumber s) xs
        | _ => None
        end
      else if String.eqb tag "BS" then
        match payload with
        | VArr xs => VSet <$> mapM (fun x => VBin <$> asString x) xs
        | _ => None
        end
      else None
  | _ => None
  end.

(** Modelled from the spec: [unmarshallDynamoDB] of the commons package
    (absent from the sources at hand).  An attribute map such as
    [Keys] maps attribute names to structured values, so it is decoded
    as the payload of a map kind. *)
Definition unmarshallDynamoDB (image : value) : option value :=
  decode (VObj [("M", image)]).

End Codec.

(** A numeric policy for decimal integer literals: an optional minus
    sign followed by one or more digits. *)
Definition digitOf (c : ascii) : option Z :=
  let n := Z.of_nat (nat_of_ascii c) in
  if (48 <=? n)%Z && (n <=? 57)%Z then Some (n - 48)%Z else None.

Fixpoint digits (acc : Z) (s : string) : option Z :=
  match s with
  | EmptyString => Some acc
  | String c rest => d ← digitOf c; digits (10 * acc + d)%Z rest
  end.

Definition decimalNumber (s : string) : option Z :=
  match s with
  | EmptyString => None
  | String "-" EmptyString => None
  | String "-" rest => Z.opp <$> digits 0 rest
  | _ => digits 0 s
  end.

(** ** The store of the transform hook

    [unmarshallDynamoDBTransform] copies its argument and assigns to the
    copy.  Objects therefore live in a heap of cells addressed by
    location; the refinement context [ctx] is the list of issues added so
    far.  A computation returns [None] when the hook returns [z.NEVER].
    The fields of a cell hold value trees: the hook only ever replaces a
    field of its copy, and the codec it calls is a function on values. *)

Abbreviation loc := nat.

Record store : Type := mkStore {
  heap : list value;
  ctxIssues : list issue
}.

Definition tx (A : Type) : Type := store -> option A * store.

#[global] Instance tx_ret : MRet tx := fun A a s => (Some a, s).

#[global] Instance tx_bind : MBind tx := fun A B k m s =>
  match m s with
  | (Some a, s') => k a s'
  | (None, s') => (None, s')
  end.

(** [return z.NEVER] *)
Definition NEVER {A : Type} : tx A := fun s => (None, s).

(** [ctx.addIssue(i)] *)
Definition addIssue (i : issue) : tx unit :=
  fun s => (Some tt, mkStore (heap s) (ctxIssues s ++ [i])).

Definition ownFields (cell : option value) : fields :=
  match cell with
  | Some (VObj fs) => fs
  | _ => []
  end.

(** [{ ...object }]: a new cell holding the own fields of [object]. *)
Definition spread (object : loc) : tx loc :=
  fun s =>
    (Some (length (heap s)),
     mkStore (heap s ++ [VObj (ownFields (heap s !! object))]) (ctxIssues s)).

(** [object.k] *)
Definition getField (object : loc) (k : string) : tx value :=
  fun s => (Some (obj_get k (ownFields (heap s !! object))), s).

Definition setProp (k : string) (v : value) (cell : value) : value :=
  match cell with
  | VObj fs => VObj (obj_set k v fs)
  | _ => cell
  end.

(** [object.k = v] *)
Definition setField (object : loc) (k : string) (v : value) : tx unit :=
  fun s => (Some tt, mkStore (alter (setProp k v) object (heap s)) (ctxIssues s)).

Definition unmarshallIssue (imageName : string) : issue :=
  mkIssue "custom" None
    ("Could not unmarshall " ++ imageName ++ " in DynamoDB stream record")
    [Key imageName] true.

Section Stream.

(** [unmarshallDynamoDB] of the commons package; [None] when it throws. *)
Variable unmarshall : value -> option value.

(** The inner arrow function of the hook.  Its [z.NEVER] result, which
    the caller tests and returns at once, is the [None] of [tx]. *)
Definition unmarshallAttributeValue (imageName : string) (image : value)
    : tx value :=
  match unmarshall image with
  | Some r => mret r
  | None => addIssue (unmarshallIssue imageName);; NEVER
  end.

Definition unmarshallDynamoDBTransform (object : loc) : tx loc :=
  result ← spread object;
  keys ← getField object "Keys";
  unmarshalledKeys ← unmarshallAttributeValue "Keys" keys;
  setField result "Keys" unmarshalledKeys;;
  newImage ← getField object "NewImage";
  (if truthy newImage then
     unmarshalled ← unmarshallAttributeValue "NewImage" newImage;
     setField result "NewImage" unmarshalled
   else mret tt);;
  oldImage ← getField object "OldImage";
  (if truthy oldImage then
     unmarshalled ← unmarshallAttributeValue "OldImage" oldImage;
     setField result "OldImage" unmarshalled
   else mret tt);;
  mret result.

(** The value of [z.NEVER]. *)
Definition NEVERvalue : value := VObj [("status", VStr "aborted")].

(** How the validation library sees a hook: it passes the validated
    value (a fresh object of its own) with an empty context, and the
    outcome is a failure as soon as the context holds an issue. *)
Definition asTransform (hook : loc -> tx loc) (input : value) : parsed :=
  let '(r, s) := hook 0%nat (mkStore [input] []) in
  match r, ctxIssues s with
  | Some l, [] => Valid (default VUndefined (heap s !! l))
  | None, [] => Valid NEVERvalue
  | _, i :: others => Invalid i others
  end.

(** ** The schemas of [schemas/dynamodb.ts] *)

Definition DynamoDBStreamChangeRecordBase : schema :=
  SObject
    [ ("ApproximateCreationDateTime", SOptional SNumber);
      ("Keys", SRecord (SRecord SAny));
      ("NewImage", SOptional (SRecord SAny));
      ("OldImage", SOptional (SRecord SAny));
      ("SequenceNumber", SString);
      ("SizeBytes", SNumber);
      ("StreamViewType",
        SEnum ["NEW_IMAGE"; "OLD_IMAGE"; "NEW_AND_OLD_IMAGES"; "KEYS_ONLY"]) ]
    false.

Definition DynamoDBStreamToKinesisChangeRecord : schema :=
  omit ["SequenceNumber"; "StreamViewType"] DynamoDBStreamChangeRecordBase.

Definition DynamoDBStreamChangeRecord : schema :=
  STransform DynamoDBStreamChangeRecordBase
    (asTransform unmarshallDynamoDBTransform).

Definition UserIdentity : schema :=
  SObject
    [ ("type", SEnum ["Service"]);
      ("principalId", SLiteral "dynamodb.amazonaws.com") ]
    false.

Definition DynamoDBStreamRecord : schema :=
  SObject
    [ ("eventID", SString);
      ("eventName", SEnum ["INSERT"; "MODIFY"; "REMOVE"]);
      ("eventVersion", SString);
      ("eventSource", SLiteral "aws:dynamodb");
      ("awsRegion", SString);
      ("eventSourceARN", SString);
      ("dynamodb", DynamoDBStreamChangeRecord);
      ("userIdentity", SOptional UserIdentity) ]
    false.

Definition DynamoDBStreamToKinesisRecord : schema :=
  omit ["eventVersion"; "eventSourceARN"]
    (extend
       [ ("recordFormat", SLiteral "application/json");
         ("tableName", SString);
         ("userIdentity", SNullish UserIdentity);
         ("dynamodb",
           STransform DynamoDBStreamToKinesisChangeRecord
             (asTransform unmarshallDynamoDBTransform)) ]
       DynamoDBStreamRecord).

Definition DynamoDBStreamSchema : schema :=
  SObject
    [ ("Records", SArray DynamoDBStreamRecord true);
      ("window",
        SOptional (SObject [("start", SIsoDatetime); ("end", SIsoDatetime)] false));
      ("state", SOptional (SRecord SString));
      ("shardId", SOptional SString);
      ("eventSourceARN", SOptional SString);
      ("isFinalInvokeForWindow", SOptional SBoolean);
      ("isWindowTerminatedEarly", SOptional SBoolean) ]
    false.

End Stream.

(** ** The parse result boundary *)

(** Modelled from the spec: [ParseError] of [src/errors.ts] (absent from
    the sources at hand), a message and the aggregated issues as cause. *)
Record ParseError : Type := mkParseError {
  errorMessage : string;
  cause : list issue
}.

(** Modelled from the spec: the outcome returned by [safeParse]. *)
Inductive Outcome : Type :=
| Success (data : value)
| Failure (error : ParseError) (originalEvent : value).

(** How a call of [parse] completes. *)
Inductive Completion : Type :=
| Returns (data : value)
| Throws (error : ParseError).

(** Modelled from the spec: an envelope (the envelope modules are absent
    from the sources at hand).  It is named after its event source and
    owns the one validation routine that both calling conventions share. *)
Record Envelope : Type := mkEnvelope {
  kind : string;
  validate : schema -> value -> parsed
}.

Definition failureMessage (env : Envelope) : string :=
  "Failed to parse " ++ kind env ++ " body".

(** Modelled from the spec: [safeParse] never throws and hands back the
    event it was given on failure. *)
Definition safeParse (env : Envelope) (event : value) (sch : schema) : Outcome :=
  match validate env sch event with
  | Valid data => Success data
  | Invalid i others =>
      Failure (mkParseError (failureMessage env) (i :: others)) event
  end.

(** Modelled from the spec: [parse] is [safeParse] with the failure
    branch converted to a thrown error. *)
Definition parse (env : Envelope) (event : value) (sch : schema) : Completion :=
  match safeParse env event sch with
  | Success data => Returns data
  | Failure error _ => Throws error
  end.

(** The issues of a result, moved under the path [place]. *)
Definition atPath (place : list seg) (r : parsed) : parsed :=
  match r with
  | Valid w => Valid w
  | Invalid i others =>
      Invalid (fold_right prefixIssue i place)
        (map (fun x => fold_right prefixIssue x place) others)
  end.

Definition fieldsOf (v : value) : fields :=
  match v with VObj fs => fs | _ => [] end.

Definition itemsOf (v : value) : list value :=
  match v with VArr xs => xs | _ => [] end.

Section Envelopes.

Variable isoDatetime : string -> bool.
Variable unmarshall : value -> option value.

(** Modelled from the spec: an envelope with one payload.  The outer
    shape is validated with the caller's schema put at the payload
    field, and the validated payload is returned. *)
Definition singleEnvelope (name : string) (outer : schema) (field : string)
    : Envelope :=
  mkEnvelope name (fun sch event =>
    match run isoDatetime (extend [(field, sch)] outer) event with
    | Valid data => Valid (obj_get field (fieldsOf data))
    | Invalid i others => Invalid i others
    end).

(** Modelled from the spec: the per-record step of a batch envelope.
    Every located payload goes through the caller's schema; its issues
    are reported where the payload lies in the event, under
    [Records[i]] followed by the path [place] of the payload in its
    record. *)
Fixpoint payloads (locate : value -> value) (place : list seg) (sch : schema)
    (i : nat) (records : list value) : list issue * list value :=
  match records with
  | [] => ([], [])
  | r :: rest =>
      handleElementResult (Idx i)
        (atPath place (run isoDatetime sch (locate r)))
        (payloads locate place sch (S i) rest)
  end.

(** Modelled from the spec: a batch envelope.  The outer shape, which
    holds the records under [Records], is validated first; then each
    record's payload is validated.  All or nothing: one failing record
    fails the call. *)
Definition batchEnvelope (name : string) (outer : schema)
    (locate : value -> value) (place : list seg) : Envelope :=
  mkEnvelope name (fun sch event =>
    match run isoDatetime outer event with
    | Valid data =>
        let acc :=
          payloads locate place sch 0%nat
            (itemsOf (obj_get "Records" (fieldsOf data))) in
        finishArr (prefixIssues (Key "Records") (fst acc)) (snd acc)
    | Invalid i others => Invalid i others
    end).

(** Modelled from the spec and the unit test of the gateway envelope:
    the outer shape of an HTTP gateway event is an object schema whose
    [body] is replaced by the caller's schema. *)
Definition ApiGatewayV2Envelope (outer : shape) : Envelope :=
  singleEnvelope "API Gateway HTTP" (SObject outer false) "body".

(** Modelled from the spec: the stream batch envelope over
    [DynamoDBStreamSchema]; the payload of a record is its change
    record. *)
Definition DynamoDBStreamEnvelope : Envelope :=
  batchEnvelope "DynamoDB Stream" (DynamoDBStreamSchema unmarshall)
    (fun r => obj_get "dynamodb" (fieldsOf r)) [Key "dynamodb"].

End Envelopes.

(** ** Concrete events *)

(** A date-time check to run the schemas with: an instance for the
    examples, which contain no date-time field. *)
Definition anyDatetime (s : string) : bool := true.

(** The codec with the decimal numeric policy. *)
Definition unmarshallDecimal : value -> option value :=
  unmarshallDynamoDB decimalNumber.

(** Modelled from the unit test of the gateway envelope: the fields of a
    gateway event that the test touches. *)
Definition gatewayOuter : shape :=
  [ ("rawPath", SString);
    ("headers", SRecord SString);
    ("body", SOptional SString);
    ("isBase64Encoded", SBoolean) ].

(** The caller's schema of the test: [z.object({ message: z.string() }).strict()]. *)
Definition messageSchema : schema := SObject [("message", SString)] true.

(** The test event without its body, and without [rawPath] as well. *)
Definition eventNoBody : value :=
  VObj [ ("rawPath", VStr "/my/path");
         ("headers", VObj [("content-type", VStr "application/json")]);
         ("isBase64Encoded", VBool false) ].

Definition eventNoPathNoBody : value :=
  VObj [ ("headers", VObj [("content-type", VStr "application/json")]);
         ("isBase64Encoded", VBool false) ].

Definition keysA : value := VObj [("Id", VObj [("N", VStr "101")])].

Definition newImageA : value :=
  VObj [("Message", VObj [("S", VStr "hi")]); ("Id", VObj [("N", VStr "101")])].

(** Two kind tags in one structured value. *)
Definition keysB : value :=
  VObj [("Id", VObj [("N", VStr "101"); ("S", VStr "x")])].

(** The first record of the example in the documentation of
    [DynamoDBStreamSchema]: [NEW_AND_OLD_IMAGES] with a new image only. *)
Definition changeRecordA : value :=
  VObj [ ("Keys", keysA);
         ("NewImage", newImageA);
         ("SequenceNumber", VStr "111");
         ("SizeBytes", VNum 26);
         ("StreamViewType", VStr "NEW_AND_OLD_IMAGES") ].

Definition changeRecordB : value :=
  VObj [ ("Keys", keysB);
         ("NewImage", newImageA);
         ("SequenceNumber", VStr "111");
         ("SizeBytes", VNum 26);
         ("StreamViewType", VStr "NEW_AND_OLD_IMAGES") ].

Definition streamRecord (eventID : string) (change : value) : value :=
  VObj [ ("eventID", VStr eventID);
         ("eventName", VStr "INSERT");
         ("eventVersion", VStr "1.0");
         ("eventSource", VStr "aws:dynamodb");
         ("awsRegion", VStr "us-east-1");
         ("dynamodb", change);
         ("eventSourceARN", VStr "stream-ARN") ].

Definition streamEvent (records : list value) : value :=
  VObj [("Records", VArr records)].

(** [KEYS_ONLY] together with a new image. *)
Definition changeRecordKeysOnly : value :=
  VObj [ ("Keys", keysA);
         ("NewImage", newImageA);
         ("SequenceNumber", VStr "111");
         ("SizeBytes", VNum 26);
         ("StreamViewType", VStr "KEYS_ONLY") ].

(** [NEW_IMAGE] with an old image only, and [OLD_IMAGE] with a new image
    only. *)
Definition changeRecordNewImageType : value :=
  VObj [ ("Keys", keysA);
         ("OldImage", newImageA);
         ("SequenceNumber", VStr "111");
         ("SizeBytes", VNum 26);
         ("StreamViewType", VStr "NEW_IMAGE") ].

Definition changeRecordOldImageType : value :=
  VObj [ ("Keys", keysA);
         ("NewImage", newImageA);
         ("SequenceNumber", VStr "111");
         ("SizeBytes", VNum 26);
         ("StreamViewType", VStr "OLD_IMAGE") ].

(** A record with the image [name] put in or taken out. *)
Definition withImage (name : string) (image : option fields) (fs : fields)
    : fields :=
  match image with
  | Some m => obj_set name (VObj m) fs
  | None => obj_remove name fs
  end.

(** The reading of [StreamViewType] as a discriminant, in the words of
    the data model: which images a record of each view type holds. *)
Definition viewTypeRestrictsImages (fs : fields) : bool :=
  let new := obj_has "NewImage" fs in
  let old := obj_has "OldImage" fs in
  match obj_get "StreamViewType" fs with
  | VStr t =>
      if String.eqb t "KEYS_ONLY" then negb new && negb old
      else if String.eqb t "NEW_IMAGE" then new && negb old
      else if String.eqb t "OLD_IMAGE" then negb new && old
      else if String.eqb t "NEW_AND_OLD_IMAGES" then new && old
      else false
  | _ => false
  end.

(** ** The hook read as a function on fields

    What [unmarshallDynamoDBTransform] leaves in its copy, and the image
    it stopped at, if any; the section on the store proves that the hook
    computes exactly this. *)

Definition unmarshalImage (unmarshall : value -> option value) (name : string)
    (object : fields) (result : fields) : fields + string :=
  if truthy (obj_get name object) then
    match unmarshall (obj_get name object) with
    | Some u => inl (obj_set name u result)
    | None => inr name
    end
  else inl result.

Definition unmarshalRecord (unmarshall : value -> option value)
    (object : fields) : fields * option string :=
  match unmarshall (obj_get "Keys" object) with
  | None => (object, Some "Keys")
  | Some uk =>
      let r1 := obj_set "Keys" uk object in
      match unmarshalImage unmarshall "NewImage" object r1 with
      | inr name => (r1, Some name)
      | inl r2 =>
          match unmarshalImage unmarshall "OldImage" object r2 with
          | inr name => (r2, Some name)
          | inl r3 => (r3, None)
          end
      end
  end.

Definition imageNames : list string := ["Keys"; "NewImage"; "OldImage"].

(** A second change record, with both images, and a two-record event. *)
Definition changeRecordC : value :=
  VObj [ ("Keys", keysA);
         ("NewImage", newImageA);
         ("OldImage", newImageA);
         ("SequenceNumber", VStr "222");
         ("SizeBytes", VNum 59);
         ("StreamViewType", VStr "NEW_AND_OLD_IMAGES") ].

Definition twoRecordEvent : value :=
  streamEvent [streamRecord "1" changeRecordA; streamRecord "2" changeRecordC].

(** A caller's schema for a change record: [{ Keys: { Id: number } }]. *)
Definition keysSchema : schema :=
  SObject [("Keys", SObject [("Id", SNumber)] false)] false.

Definition keysOut : value := VObj [("Keys", VObj [("Id", VNum 101)])].

(** What the schemas return for the records above. *)
Definition changeRecordAOut : value :=
  VObj [ ("Keys", VObj [("Id", VNum 101)]);
         ("NewImage", VObj [("Message", VStr "hi"); ("Id", VNum 101)]);
         ("SequenceNumber", VStr "111");
         ("SizeBytes", VNum 26);
         ("StreamViewType", VStr "NEW_AND_OLD_IMAGES") ].

Definition streamRecordOut (eventID : string) (change : value) : value :=
  VObj [ ("eventID", VStr eventID);
         ("eventName", VStr "INSERT");
         ("eventVersion", VStr "1.0");
         ("eventSource", VStr "aws:dynamodb");
         ("awsRegion", VStr "us-east-1");
         ("eventSourceARN", VStr "stream-ARN");
         ("dynamodb", change) ].

(** A record as a Kinesis stream carries it: no [SequenceNumber], no
    [StreamViewType], no [eventVersion], no [eventSourceARN]. *)
Definition kinesisChangeRecordA : value :=
  VObj [ ("ApproximateCreationDateTime", VNum 1731924555370);
         ("Keys", keysA);
         ("NewImage", newImageA);
         ("SizeBytes", VNum 26) ].

Definition kinesisChangeRecordAOut : value :=
  VObj [ ("ApproximateCreationDateTime", VNum 1731924555370);
         ("Keys", VObj [("Id", VNum 101)]);
         ("NewImage", VObj [("Message", VStr "hi"); ("Id", VNum 101)]);
         ("SizeBytes", VNum 26) ].

Definition kinesisRecordA : value :=
  VObj [ ("awsRegion", VStr "us-east-1");
         ("eventID", VStr "1");
         ("eventName", VStr "INSERT");
         ("userIdentity", VNull);
         ("recordFormat", VStr "application/json");
         ("tableName", VStr "PowertoolsEventsStack");
         ("dynamodb", kinesisChangeRecordA);
         ("eventSource", VStr "aws:dynamodb") ].

Definition kinesisRecordAOut : value :=
  VObj [ ("eventID", VStr "1");
         ("eventName", VStr "INSERT");
         ("eventSource", VStr "aws:dynamodb");
         ("awsRegion", VStr "us-east-1");
         ("dynamodb", kinesisChangeRecordAOut);
         ("userIdentity", VNull);
         ("recordFormat", VStr "application/json");
         ("tableName", VStr "PowertoolsEventsStack") ].

(** A change record whose new image has a structured value without a
    kind tag, and one without [SizeBytes]. *)
Definition changeRecordBadImage : value :=
  VObj [ ("Keys", keysA);
         ("NewImage", VObj [("Message", VObj [])]);
         ("OldImage", keysB);
         ("SequenceNumber", VStr "111");
         ("SizeBytes", VNum 26);
         ("StreamViewType", VStr "NEW_AND_OLD_IMAGES") ].

Definition changeRecordNoSize : value :=
  VObj [ ("Keys", keysB);
         ("SequenceNumber", VStr "111");
         ("StreamViewType", VStr "NEW_AND_OLD_IMAGES") ].

Definition changeRecordCOut : value :=
  VObj [ ("Keys", VObj [("Id", VNum 101)]);
         ("NewImage", VObj [("Message", VStr "hi"); ("Id", VNum 101)]);
         ("OldImage", VObj [("Message", VStr "hi"); ("Id", VNum 101)]);
         ("SequenceNumber", VStr "222");
         ("SizeBytes", VNum 59);
         ("StreamViewType", VStr "NEW_AND_OLD_IMAGES") ].

Definition twoRecordEventOut : value :=
  VObj [ ("Records",
           VArr [ streamRecordOut "1" changeRecordAOut;
                  streamRecordOut "2" changeRecordCOut ]) ].

(** An event whose second record cannot be unmarshalled. *)
Definition mixedRecords : list value :=
  [streamRecord "1" changeRecordA; streamRecord "2" changeRecordB].

(** An event with a tumbling window, as in the documentation of
    [DynamoDBStreamSchema]. *)
Definition windowEvent : value :=
  VObj [ ("Records", VArr [streamRecord "1" changeRecordA]);
         ("window", VObj [ ("start", VStr "2020-07-30T17:00:00Z");
                           ("end", VStr "2020-07-30T17:05:00Z") ]);
         ("shardId", VStr "shard123456789");
         ("isFinalInvokeForWindow", VBool false) ].

(** * Properties *)

(** ** Both calling conventions *)

Lemma parse_of_safeParse env event sch :
  parse env event sch =
  match validate env sch event with
  | Valid data => Returns data
  | Invalid i others => Throws (mkParseError (failureMessage env) (i :: others))
  end.
Proof. unfold parse, safeParse. by destruct (validate env sch event). Qed.

(** ** Objects as association lists *)

Lemma obj_get_set_eq k v fs : obj_get k (obj_set k v fs) = v.
Proof.
  induction fs as [|[k' v'] fs IH]; simpl.
  - by rewrite String.eqb_refl.
  - destruct (String.eqb k k') eqn:E; simpl; by rewrite E.
Qed.

Lemma obj_get_set_ne k k' v fs :
  k <> k' -> obj_get k (obj_set k' v fs) = obj_get k fs.
Proof.
  intros Hne. induction fs as [|[k0 v0] fs IH]; simpl.
  - apply String.eqb_neq in Hne. by rewrite Hne.
  - destruct (String.eqb k' k0) eqn:E; simpl.
    + apply String.eqb_eq in E. subst k0.
      apply String.eqb_neq in Hne. by rewrite Hne.
    + by rewrite IH.
Qed.

Lemma obj_has_set_ne k k' v fs :
  k <> k' -> obj_has k (obj_set k' v fs) = obj_has k fs.
Proof.
  intros Hne. induction fs as [|[k0 v0] fs IH]; simpl.
  - apply String.eqb_neq in Hne. by rewrite Hne.
  - destruct (String.eqb k' k0) eqn:E; simpl.
    + apply String.eqb_eq in E. subst k0.
      apply String.eqb_neq in Hne. by rewrite Hne.
    + by rewrite IH.
Qed.

Lemma obj_has_false_get k fs : obj_has k fs = false -> obj_get k fs = VUndefined.
Proof.
  induction fs as [|[k' v'] fs IH]; simpl; [done|].
  by destruct (String.eqb k k').
Qed.

Lemma inb_In s l : inb s l = true <-> In s l.
Proof.
  induction l as [|x l IH]; simpl; [split; [discriminate|tauto]|].
  destruct (String.eqb s x) eqn:E.
  - apply String.eqb_eq in E. subst. tauto.
  - apply String.eqb_neq in E. rewrite IH. split; [tauto|].
    intros [->|H]; [congruence|done].
Qed.

(** ** The validation library on objects and arrays *)

Section ZodFacts.

Variable isoDatetime : string -> bool.

Local Abbreviation run := (run isoDatetime).
Local Abbreviation props := (props isoDatetime).
Local Abbreviation elements := (elements isoDatetime).

Lemma run_SObject sh strict fs :
  run (SObject sh strict) (VObj fs) =
  let extra := filter (fun k => negb (inb k (map fst sh))) (obj_keys fs) in
  match strict, extra with
  | true, _ :: _ =>
      match fst (props fs sh) with
      | [] => Invalid (unrecognized_keys extra) []
      | i :: others => Invalid i (others ++ [unrecognized_keys extra])
      end
  | _, _ => finish (fst (props fs sh)) (snd (props fs sh))
  end.
Proof. reflexivity. Qed.

Lemma run_SRecord vt fs :
  run (SRecord vt) (VObj fs) =
  finish (fst (entries isoDatetime vt fs)) (snd (entries isoDatetime vt fs)).
Proof. reflexivity. Qed.

Lemma run_SArray el ne xs :
  run (SArray el ne) (VArr xs) =
  match fst (elements el 0 xs), ne, xs with
  | [], true, [] => Invalid too_small []
  | _, _, _ => finishArr (fst (elements el 0 xs)) (snd (elements el 0 xs))
  end.
Proof. reflexivity. Qed.

Lemma run_object_inv sh v out :
  run (SObject sh false) v = Valid out ->
  exists fs, v = VObj fs /\ fst (props fs sh) = [] /\ out = VObj (snd (props fs sh)).
Proof.
  destruct v; try discriminate. rewrite run_SObject. unfold finish.
  destruct (fst (props fields0 sh)) eqn:E; [|discriminate].
  intros [= <-]. eauto.
Qed.

Lemma run_array_inv el ne v out :
  run (SArray el ne) v = Valid out ->
  exists xs, v = VArr xs /\ fst (elements el 0 xs) = [] /\
    out = VArr (snd (elements el 0 xs)) /\ (ne = true -> xs <> []).
Proof.
  destruct v; try discriminate. rewrite run_SArray. unfold finishArr.
  destruct (fst (elements el 0 xs)) eqn:E.
  - destruct ne, xs; try discriminate; intros [= <-];
      eexists; repeat split; eauto; congruence.
  - by destruct ne, xs.
Qed.

(** No issue from a field means every field of the shape is valid. *)
Lemma props_nil fs sh :
  fst (props fs sh) = [] <->
  Forall (fun kv => is_valid (run (snd kv) (obj_get (fst kv) fs)) = true) sh.
Proof.
  induction sh as [|[k sk] sh IH]; simpl.
  - split; [constructor|done].
  - rewrite Forall_cons. simpl. rewrite <- IH.
    unfold handlePropertyResult.
    destruct (run sk (obj_get k fs)) as [w|i others]; simpl.
    + destruct w; simpl; tauto.
    + split; [discriminate|]. intros [? _]. discriminate.
Qed.

Lemma run_object_valid sh fs :
  is_valid (run (SObject sh false) (VObj fs)) = true <->
  Forall (fun kv => is_valid (run (snd kv) (obj_get (fst kv) fs)) = true) sh.
Proof.
  rewrite <- props_nil, run_SObject. unfold finish.
  destruct (fst (props fs sh)); simpl; split; done.
Qed.

(** Every issue of a field of the shape is in the object's issues,
    under the field's key. *)
Lemma props_issue fs sh k sk x :
  In (k, sk) sh -> In x (issues_of (run sk (obj_get k fs))) ->
  In (prefixIssue (Key k) x) (fst (props fs sh)).
Proof.
  induction sh as [|[k' sk'] sh IH]; [done|].
  intros [[= -> ->]|Hin] Hx;
    change (props fs ((?a, ?b) :: sh))
      with (handlePropertyResult a fs (run b (obj_get a fs)) (props fs sh)).
  - unfold handlePropertyResult.
    destruct (run sk (obj_get k fs)) as [w|i others]; [done|].
    cbn [fst issues_of] in *. apply in_or_app. left. by apply in_map.
  - specialize (IH Hin Hx). unfold handlePropertyResult.
    destruct (run sk' (obj_get k' fs)) as [w|i others].
    + by destruct w.
    + cbn [fst]. apply in_or_app. by right.
Qed.

Lemma run_object_issue sh strict fs x :
  In x (fst (props fs sh)) -> In x (issues_of (run (SObject sh strict) (VObj fs))).
Proof.
  intros Hx. rewrite run_SObject. cbv zeta. unfold finish.
  generalize (filter (fun k => negb (inb k (map fst sh))) (obj_keys fs)).
  intros extra.
  destruct strict, extra; destruct (fst (props fs sh)) as [|i others];
    simpl in *; try done.
  destruct Hx as [->|Hx]; [by left|]. right. apply in_or_app. by left.
Qed.

(** Arrays are validated element by element, in order. *)
Lemma elements_nil el i xs :
  fst (elements el i xs) = [] ->
  Forall2 (fun x y => run el x = Valid y) xs (snd (elements el i xs)).
Proof.
  revert i. induction xs as [|x xs IH]; intros i; simpl; [constructor|].
  unfold handleElementResult.
  destruct (run el x) as [w|j others] eqn:E; simpl; [|discriminate].
  intros H. constructor; [done|]. by apply IH.
Qed.

Lemma elements_issue el i xs n x y :
  xs !! n = Some x -> In y (issues_of (run el x)) ->
  In (prefixIssue (Idx (i + n)) y) (fst (elements el i xs)).
Proof.
  revert i n. induction xs as [|x0 xs IH]; intros i n; [done|].
  change (elements el i (x0 :: xs))
    with (handleElementResult (Idx i) (run el x0) (elements el (S i) xs)).
  destruct n as [|n].
  - intros [= ->] Hy. rewrite Nat.add_0_r. unfold handleElementResult.
    destruct (run el x) as [w|j others]; [done|].
    cbn [fst issues_of] in *. apply in_or_app. left. by apply in_map.
  - intros Hn Hy. specialize (IH (S i) n Hn Hy).
    replace (i + S n)%nat with (S i + n)%nat by lia.
    unfold handleElementResult.
    destruct (run el x0) as [w|j others]; [done|].
    cbn [fst]. apply in_or_app. by right.
Qed.

Lemma run_array_issue el ne xs x :
  In x (fst (elements el 0 xs)) -> In x (issues_of (run (SArray el ne) (VArr xs))).
Proof.
  intros Hx. rewrite run_SArray. unfold finishArr.
  destruct (fst (elements el 0 xs)) as [|i others]; [done|].
  by destruct ne, xs.
Qed.

End ZodFacts.

(** ** The stream schemas *)

Section SchemaFacts.

Variable isoDatetime : string -> bool.

Local Abbreviation run := (run isoDatetime).
Local Abbreviation props := (props isoDatetime).
Local Abbreviation elements := (elements isoDatetime).

Lemma run_enum_valid opts v :
  is_valid (run (SEnum opts) v) = true <-> exists t, v = VStr t /\ In t opts.
Proof.
  destruct v; simpl; try (split; [discriminate|intros (t & [=] & _)]).
  destruct (inb s opts) eqn:E; simpl.
  - split; [|done]. intros _. exists s. split; [done|]. by apply inb_In.
  - split; [discriminate|]. intros (t & [= <-] & Hin).
    apply inb_In in Hin. congruence.
Qed.

Lemma run_optional_record_valid v :
  is_valid (run (SOptional (SRecord SAny)) v) = true ->
  v = VUndefined \/ exists m, v = VObj m.
Proof. destruct v; simpl; try discriminate; eauto. Qed.

Lemma obj_get_remove_eq k fs : obj_get k (obj_remove k fs) = VUndefined.
Proof.
  induction fs as [|[k' v'] fs IH]; simpl; [done|].
  destruct (String.eqb k k') eqn:E; simpl; by rewrite ?E.
Qed.

Lemma obj_has_remove_eq k fs : obj_has k (obj_remove k fs) = false.
Proof.
  induction fs as [|[k' v'] fs IH]; simpl; [done|].
  destruct (String.eqb k k') eqn:E; simpl; by rewrite ?E.
Qed.

Lemma obj_get_remove_ne k k' fs :
  k <> k' -> obj_get k (obj_remove k' fs) = obj_get k fs.
Proof.
  intros Hne. induction fs as [|[k0 v0] fs IH]; simpl; [done|].
  destruct (String.eqb k' k0) eqn:E; simpl.
  - apply String.eqb_eq in E. subst k0.
    apply String.eqb_neq in Hne. by rewrite Hne.
  - by rewrite IH.
Qed.

Lemma obj_has_remove_ne k k' fs :
  k <> k' -> obj_has k (obj_remove k' fs) = obj_has k fs.
Proof.
  intros Hne. induction fs as [|[k0 v0] fs IH]; simpl; [done|].
  destruct (String.eqb k' k0) eqn:E; simpl.
  - apply String.eqb_eq in E. subst k0.
    apply String.eqb_neq in Hne. by rewrite Hne.
  - by rewrite IH.
Qed.

Lemma obj_has_set_eq k v fs : obj_has k (obj_set k v fs) = true.
Proof.
  induction fs as [|[k' v'] fs IH]; simpl.
  - by rewrite String.eqb_refl.
  - destruct (String.eqb k k') eqn:E; simpl; by rewrite E.
Qed.

Lemma withImage_get name image fs :
  obj_get name (withImage name image fs) =
  match image with Some m => VObj m | None => VUndefined end.
Proof.
  destruct image; simpl; [apply obj_get_set_eq|apply obj_get_remove_eq].
Qed.

Lemma withImage_has name image fs :
  obj_has name (withImage name image fs) =
  match image with Some _ => true | None => false end.
Proof.
  destruct image; simpl; [apply obj_has_set_eq|apply obj_has_remove_eq].
Qed.

Lemma withImage_get_ne k name image fs :
  k <> name -> obj_get k (withImage name image fs) = obj_get k fs.
Proof.
  intros Hne. destruct image; simpl;
    [by apply obj_get_set_ne|by apply obj_get_remove_ne].
Qed.

Lemma withImage_has_ne k name image fs :
  k <> name -> obj_has k (withImage name image fs) = obj_has k fs.
Proof.
  intros Hne. destruct image; simpl;
    [by apply obj_has_set_ne|by apply obj_has_remove_ne].
Qed.

(** Every attribute map, and no image at all, passes the schema of an
    image. *)
Lemma run_image_valid image :
  is_valid (run (SOptional (SRecord SAny))
              match image with Some m => VObj m | None => VUndefined end) = true.
Proof.
  destruct image as [m|]; [|reflexivity].
  change (is_valid (run (SRecord SAny) (VObj m)) = true).
  rewrite (run_SRecord isoDatetime SAny m).
  assert (H : entries isoDatetime SAny m = ([], m)).
  { induction m as [|[k x] m IH]; [done|].
    change (entries isoDatetime SAny ((k, x) :: m))
      with (handleEntryResult k (run SAny x) (entries isoDatetime SAny m)).
    by rewrite IH. }
  by rewrite H.
Qed.

(** C3, as the code has it: an accepted change record has one of the four
    view types, and the view type does not restrict the images.  Each
    image of an accepted record is absent or an attribute map; and the
    record stays accepted under each of the four view types with each
    image put in (as any attribute map) or taken out, independently: all
    sixteen pairings of a view type with present or absent images are
    accepted. *)
Theorem viewType_does_not_restrict_images (v out : value) :
  run DynamoDBStreamChangeRecordBase v = Valid out ->
  exists fs t,
    v = VObj fs /\
    obj_get "StreamViewType" fs = VStr t /\
    In t ["NEW_IMAGE"; "OLD_IMAGE"; "NEW_AND_OLD_IMAGES"; "KEYS_ONLY"] /\
    (obj_get "NewImage" fs = VUndefined \/ exists m, obj_get "NewImage" fs = VObj m) /\
    (obj_get "OldImage" fs = VUndefined \/ exists m, obj_get "OldImage" fs = VObj m) /\
    (forall t',
      In t' ["NEW_IMAGE"; "OLD_IMAGE"; "NEW_AND_OLD_IMAGES"; "KEYS_ONLY"] ->
      is_valid (run DynamoDBStreamChangeRecordBase
                  (VObj (obj_set "StreamViewType" (VStr t') fs))) = true) /\
    forall t' (newImage oldImage : option fields),
      In t' ["NEW_IMAGE"; "OLD_IMAGE"; "NEW_AND_OLD_IMAGES"; "KEYS_ONLY"] ->
      is_valid (run DynamoDBStreamChangeRecordBase
                  (VObj (withImage "OldImage" oldImage
                           (withImage "NewImage" newImage
                              (obj_set "StreamViewType" (VStr t') fs))))) = true /\
      obj_get "StreamViewType"
        (withImage "OldImage" oldImage
           (withImage "NewImage" newImage
              (obj_set "StreamViewType" (VStr t') fs))) = VStr t' /\
      obj_has "NewImage"
        (withImage "OldImage" oldImage
           (withImage "NewImage" newImage
              (obj_set "StreamViewType" (VStr t') fs))) =
        match newImage with Some _ => true | None => false end /\
      obj_has "OldImage"
        (withImage "OldImage" oldImage
           (withImage "NewImage" newImage
              (obj_set "StreamViewType" (VStr t') fs))) =
        match oldImage with Some _ => true | None => false end.
Proof.
  unfold DynamoDBStreamChangeRecordBase. intros H.
  apply run_object_inv in H as (fs & -> & Hnil & _).
  apply props_nil in Hnil. rewrite !Forall_cons in Hnil.
  destruct Hnil as (Ha & Hk & Hn & Ho & Hs & Hz & Ht & _).
  cbn [fst snd] in *.
  apply run_enum_valid in Ht as (t & Ht & Hin).
  exists fs, t.
  split; [done|]. split; [done|]. split; [done|].
  split; [by apply run_optional_record_valid|].
  split; [by apply run_optional_record_valid|].
  split.
  - intros t' Hin'. apply run_object_valid. rewrite !Forall_cons.
    cbn [fst snd].
    rewrite !obj_get_set_ne by discriminate. rewrite obj_get_set_eq.
    repeat split; try done.
    apply run_enum_valid. by exists t'.
  - intros t' newImage oldImage Hin'.
    split; [|split; [|split]].
    + apply run_object_valid. rewrite !Forall_cons. cbn [fst snd].
      rewrite withImage_get.
      rewrite !(withImage_get_ne _ "OldImage") by discriminate.
      rewrite withImage_get.
      rewrite !(withImage_get_ne _ "NewImage") by discriminate.
      rewrite !obj_get_set_ne by discriminate. rewrite obj_get_set_eq.
      repeat split; try done; try apply run_image_valid.
      apply run_enum_valid. by exists t'.
    + rewrite !withImage_get_ne by discriminate. apply obj_get_set_eq.
    + rewrite withImage_has_ne by discriminate. apply withImage_has.
    + apply withImage_has.
Qed.

Lemma props_cons fs k sk sh :
  props fs ((k, sk) :: sh) =
  handlePropertyResult k fs (run sk (obj_get k fs)) (props fs sh).
Proof. reflexivity. Qed.

(** C10: an event whose [Records] array is empty is rejected, whatever
    its other fields, with the issue of the non-empty check at
    [Records]; so an accepted event yields at least one record. *)
Theorem DynamoDBStreamSchema_rejects_empty_Records
    (unmarshall : value -> option value) :
  (forall fs,
      obj_get "Records" fs = VArr [] ->
      exists others,
        run (DynamoDBStreamSchema unmarshall) (VObj fs) =
        Invalid (prefixIssue (Key "Records") too_small) others) /\
  (forall v out,
      run (DynamoDBStreamSchema unmarshall) v = Valid out ->
      exists r rs, obj_get "Records" (fieldsOf out) = VArr (r :: rs)).
Proof.
  unfold DynamoDBStreamSchema. split.
  - intros fs Hrec. rewrite run_SObject, props_cons, Hrec. cbv zeta.
    rewrite run_SArray. cbn. eauto.
  - intros v out H.
    apply run_object_inv in H as (fs & -> & Hnil & ->).
    rewrite props_cons in Hnil |- *.
    destruct (run (SArray (DynamoDBStreamRecord unmarshall) true)
                (obj_get "Records" fs)) as [w|i others] eqn:E; [|discriminate].
    apply run_array_inv in E as (xs & Hxs & Hel & -> & Hne).
    apply elements_nil in Hel. apply Forall2_length in Hel.
    destruct xs as [|x xs]; [by specialize (Hne eq_refl)|].
    destruct (snd (elements (DynamoDBStreamRecord unmarshall) 0 (x :: xs)))
      as [|r rs] eqn:Eo; [discriminate|].
    exists r, rs. reflexivity.
Qed.

(** ** The envelopes *)

Lemma shape_set_In k sk sh : In (k, sk) (shape_set k sk sh).
Proof.
  induction sh as [|[k' s'] sh IH]; simpl; [by left|].
  destruct (String.eqb k k') eqn:E.
  - apply String.eqb_eq in E. subst. by left.
  - by right.
Qed.

Lemma shape_set_In_ne k sk k' s' sh :
  k' <> k -> In (k', s') sh -> In (k', s') (shape_set k sk sh).
Proof.
  intros Hne. induction sh as [|[k0 s0] sh IH]; simpl; [done|].
  intros [[= -> ->]|Hin].
  - destruct (String.eqb k k') eqn:E.
    + apply String.eqb_eq in E. congruence.
    + by left.
  - destruct (String.eqb k k0); right; [done|by apply IH].
Qed.

Lemma gateway_validate outer sch event :
  validate (ApiGatewayV2Envelope isoDatetime outer) sch event =
  match run (SObject (shape_set "body" sch outer) false) event with
  | Valid data => Valid (obj_get "body" (fieldsOf data))
  | Invalid i others => Invalid i others
  end.
Proof. reflexivity. Qed.

(** C5: a gateway event that lacks both [rawPath] and the body fails with
    one [ParseError] whose cause holds the issue of the missing path and
    the issues of the missing body, and likewise the issues of every
    other field that is missing and required. *)
Theorem gateway_aggregates_missing_fields (outer : shape) (sch : schema)
    (fs : fields) (b : issue) (bs : list issue) :
  In ("rawPath", SString) outer ->
  obj_get "rawPath" fs = VUndefined ->
  obj_get "body" fs = VUndefined ->
  run sch VUndefined = Invalid b bs ->
  exists e,
    safeParse (ApiGatewayV2Envelope isoDatetime outer) (VObj fs) sch =
      Failure e (VObj fs) /\
    parse (ApiGatewayV2Envelope isoDatetime outer) (VObj fs) sch = Throws e /\
    In (prefixIssue (Key "rawPath") (invalid_type "string" VUndefined)) (cause e) /\
    Forall (fun x => In (prefixIssue (Key "body") x) (cause e)) (b :: bs) /\
    forall k sk x,
      In (k, sk) outer -> k <> "body" -> obj_get k fs = VUndefined ->
      In x (issues_of (run sk VUndefined)) ->
      In (prefixIssue (Key k) x) (cause e).
Proof.
  intros Hpath Hnopath Hnobody Hsch.
  assert (Hall : forall k sk x,
             In (k, sk) (shape_set "body" sch outer) ->
             obj_get k fs = VUndefined ->
             In x (issues_of (run sk VUndefined)) ->
             In (prefixIssue (Key k) x)
               (issues_of (run (SObject (shape_set "body" sch outer) false)
                             (VObj fs)))).
  { intros k sk x Hin Hk Hx. apply run_object_issue.
    apply props_issue with sk; [done|]. by rewrite Hk. }
  rewrite parse_of_safeParse. unfold safeParse. rewrite gateway_validate.
  destruct (run (SObject (shape_set "body" sch outer) false) (VObj fs))
    as [data|i others].
  - exfalso. apply (Hall "body" sch b); [apply shape_set_In|done|].
    rewrite Hsch. by left.
  - eexists. split; [reflexivity|]. split; [reflexivity|].
    cbn [cause issues_of] in *. repeat split.
    + apply (Hall "rawPath" SString); [|done|by left].
      by apply shape_set_In_ne.
    + apply Forall_forall. intros x Hx.
      apply (Hall "body" sch); [apply shape_set_In|done|].
      rewrite Hsch. by apply list_elem_of_In.
    + intros k sk x Hin Hne Hk Hx.
      apply (Hall k sk); [by apply shape_set_In_ne|done|done].
Qed.

Lemma payloads_nil locate place sch i ys :
  fst (payloads isoDatetime locate place sch i ys) = [] ->
  Forall2 (fun y o => run sch (locate y) = Valid o) ys
    (snd (payloads isoDatetime locate place sch i ys)).
Proof.
  revert i. induction ys as [|y ys IH]; intros i; simpl; [constructor|].
  unfold handleElementResult.
  destruct (run sch (locate y)) as [w|j others] eqn:E; simpl; [|discriminate].
  intros H. constructor; [done|]. by apply IH.
Qed.

(** C8: when a batch envelope succeeds, the returned sequence has one
    validated value per input record, as many as there are records and
    in their order: the value at index [i] comes from the record at
    index [i]. *)
Theorem batch_output_follows_records (name : string) (record : schema)
    (nonempty : bool) (rest : shape) (locate : value -> value)
    (place : list seg)
    (event : value) (sch : schema) (data : value) :
  let env :=
    batchEnvelope isoDatetime name
      (SObject (("Records", SArray record nonempty) :: rest) false) locate
      place in
  safeParse env event sch = Success data \/ parse env event sch = Returns data ->
  exists rs outs,
    obj_get "Records" (fieldsOf event) = VArr rs /\
    data = VArr outs /\
    length outs = length rs /\
    forall i r,
      rs !! i = Some r ->
      exists r' o,
        run record r = Valid r' /\
        run sch (locate r') = Valid o /\
        outs !! i = Some o.
Proof.
  intros env Hok.
  assert (Hval : validate env sch event = Valid data).
  { destruct Hok as [H|H]; [|rewrite parse_of_safeParse in H];
      unfold safeParse in H;
      destruct (validate env sch event); by inversion H. }
  clear Hok. subst env. cbn [validate batchEnvelope] in Hval.
  destruct (run (SObject (("Records", SArray record nonempty) :: rest) false) event)
    as [d|i others] eqn:Ed; [|discriminate].
  apply run_object_inv in Ed as (fs & -> & Hnil & ->).
  rewrite props_cons in Hnil, Hval.
  destruct (run (SArray record nonempty) (obj_get "Records" fs))
    as [w|i others] eqn:E; [|discriminate].
  apply run_array_inv in E as (xs & Hxs & Hel & -> & _).
  apply elements_nil in Hel.
  change (obj_get "Records" (fieldsOf (VObj (snd (handlePropertyResult "Records" fs
            (Valid (VArr (snd (elements record 0 xs)))) (props fs rest))))))
    with (VArr (snd (elements record 0 xs))) in Hval.
  cbn [itemsOf] in Hval. unfold finishArr in Hval.
  destruct (fst (payloads isoDatetime locate place sch 0
                   (snd (elements record 0 xs))))
    as [|j js] eqn:Ep; [|discriminate].
  apply payloads_nil in Ep. injection Hval as <-.
  exists xs, (snd (payloads isoDatetime locate place sch 0
                     (snd (elements record 0 xs)))).
  repeat split; [done| |].
  - apply Forall2_length in Hel, Ep. congruence.
  - intros n r Hr.
    destruct (Forall2_lookup_l _ _ _ _ _ Hel Hr) as (r' & Hr' & Hrun).
    destruct (Forall2_lookup_l _ _ _ _ _ Ep Hr') as (o & Ho & Hpay).
    by exists r', o.
Qed.

End SchemaFacts.

Lemma viewType_does_not_restrict_images_witness :
  run anyDatetime DynamoDBStreamChangeRecordBase changeRecordA =
    Valid changeRecordA /\
  exists fs t,
    changeRecordA = VObj fs /\
    obj_get "StreamViewType" fs = VStr t /\
    In t ["NEW_IMAGE"; "OLD_IMAGE"; "NEW_AND_OLD_IMAGES"; "KEYS_ONLY"] /\
    (obj_get "NewImage" fs = VUndefined \/ exists m, obj_get "NewImage" fs = VObj m) /\
    (obj_get "OldImage" fs = VUndefined \/ exists m, obj_get "OldImage" fs = VObj m) /\
    (forall t',
      In t' ["NEW_IMAGE"; "OLD_IMAGE"; "NEW_AND_OLD_IMAGES"; "KEYS_ONLY"] ->
      is_valid (run anyDatetime DynamoDBStreamChangeRecordBase
                  (VObj (obj_set "StreamViewType" (VStr t') fs))) = true) /\
    forall t' (newImage oldImage : option fields),
      In t' ["NEW_IMAGE"; "OLD_IMAGE"; "NEW_AND_OLD_IMAGES"; "KEYS_ONLY"] ->
      is_valid (run anyDatetime DynamoDBStreamChangeRecordBase
                  (VObj (withImage "OldImage" oldImage
                           (withImage "NewImage" newImage
                              (obj_set "StreamViewType" (VStr t') fs))))) = true /\
      obj_get "StreamViewType"
        (withImage "OldImage" oldImage
           (withImage "NewImage" newImage
              (obj_set "StreamViewType" (VStr t') fs))) = VStr t' /\
      obj_has "NewImage"
        (withImage "OldImage" oldImage
           (withImage "NewImage" newImage
              (obj_set "StreamViewType" (VStr t') fs))) =
        match newImage with Some _ => true | None => false end /\
      obj_has "OldImage"
        (withImage "OldImage" oldImage
           (withImage "NewImage" newImage
              (obj_set "StreamViewType" (VStr t') fs))) =
        match oldImage with Some _ => true | None => false end.
Proof.
  split; [reflexivity|].
  apply (viewType_does_not_restrict_images anyDatetime changeRecordA changeRecordA).
  reflexivity.
Defined.

(** C3, as stated, fails in each of its four clauses: the schema accepts
    a [KEYS_ONLY] record that carries a new image, a [NEW_IMAGE] record
    with an old image and no new one, an [OLD_IMAGE] record with a new
    image and no old one, and a [NEW_AND_OLD_IMAGES] record with a new
    image only. *)
Lemma viewType_restriction_counterexample :
  (run anyDatetime DynamoDBStreamChangeRecordBase changeRecordKeysOnly =
     Valid changeRecordKeysOnly /\
   viewTypeRestrictsImages (fieldsOf changeRecordKeysOnly) = false) /\
  (run anyDatetime DynamoDBStreamChangeRecordBase changeRecordNewImageType =
     Valid changeRecordNewImageType /\
   viewTypeRestrictsImages (fieldsOf changeRecordNewImageType) = false) /\
  (run anyDatetime DynamoDBStreamChangeRecordBase changeRecordOldImageType =
     Valid changeRecordOldImageType /\
   viewTypeRestrictsImages (fieldsOf changeRecordOldImageType) = false) /\
  (run anyDatetime DynamoDBStreamChangeRecordBase changeRecordA =
     Valid changeRecordA /\
   viewTypeRestrictsImages (fieldsOf changeRecordA) = false).
Proof. repeat split; reflexivity. Qed.

Lemma DynamoDBStreamSchema_rejects_empty_Records_witness :
  obj_get "Records" [("Records", VArr []); ("shardId", VStr "shard123456789")] =
    VArr [] /\
  exists others,
    run anyDatetime (DynamoDBStreamSchema unmarshallDecimal)
      (VObj [("Records", VArr []); ("shardId", VStr "shard123456789")]) =
    Invalid (prefixIssue (Key "Records") too_small) others.
Proof.
  split; [reflexivity|].
  apply (proj1 (DynamoDBStreamSchema_rejects_empty_Records anyDatetime
                  unmarshallDecimal)).
  reflexivity.
Defined.

(** ** The codec on small inputs *)

Example decimalNumber_101 : decimalNumber "101" = Some 101%Z.
Proof. reflexivity. Qed.

Example decimalNumber_negative : decimalNumber "-7" = Some (-7)%Z.
Proof. reflexivity. Qed.

Example decimalNumber_not_numeric : decimalNumber "x1" = None.
Proof. reflexivity. Qed.

Example decode_one_tag :
  decode decimalNumber (VObj [("N", VStr "101")]) = Some (VNum 101).
Proof. reflexivity. Qed.

Example decode_two_tags :
  decode decimalNumber (VObj [("N", VStr "101"); ("S", VStr "x")]) = None.
Proof. reflexivity. Qed.

Example decode_no_tag : decode decimalNumber (VObj []) = None.
Proof. reflexivity. Qed.

Example decode_nested :
  decode decimalNumber
    (VObj [("M", VObj [("tags", VObj [("L", VArr [VObj [("S", VStr "a")];
                                                   VObj [("BOOL", VBool true)]])])])]) =
  Some (VObj [("tags", VArr [VStr "a"; VBool true])]).
Proof. reflexivity. Qed.

Example unmarshall_keysB : unmarshallDecimal keysB = None.
Proof. reflexivity. Qed.

(** ** The transform hook on the store *)

Section TransformFacts.

Variable isoDatetime : string -> bool.
Variable unmarshall : value -> option value.

Lemma tx_bind_run {A B : Type} (m : tx A) (k : A -> tx B) (s : store) :
  (m ≫= k) s =
  match m s with
  | (Some a, s') => k a s'
  | (None, s') => (None, s')
  end.
Proof. reflexivity. Qed.

Lemma alter_last {A : Type} (f : A -> A) (h : list A) (c : A) :
  alter f (length h) (h ++ [c]) = h ++ [f c].
Proof.
  replace (length h) with (length h + 0)%nat by lia.
  by rewrite alter_app_r.
Qed.

Lemma unmarshallAttributeValue_run name image s :
  unmarshallAttributeValue unmarshall name image s =
  match unmarshall image with
  | Some r => (Some r, s)
  | None => (None, mkStore (heap s) (ctxIssues s ++ [unmarshallIssue name]))
  end.
Proof.
  unfold unmarshallAttributeValue. by destruct (unmarshall image).
Qed.

(** One optional image: the [if (object.NewImage) { ... }] block,
    followed by the rest [k] of the hook. *)
Lemma image_block_run {B : Type} name object h o cell c (k : unit -> tx B) :
  (object < length h)%nat ->
  ownFields (h !! object) = o ->
  (image ← getField object name;
   (if truthy image then
      unmarshalled ← unmarshallAttributeValue unmarshall name image;
      setField (length h) name unmarshalled
    else mret tt) ≫= k) (mkStore (h ++ [VObj cell]) c) =
  match unmarshalImage unmarshall name o cell with
  | inl cell' => k tt (mkStore (h ++ [VObj cell']) c)
  | inr n => (None, mkStore (h ++ [VObj cell]) (c ++ [unmarshallIssue n]))
  end.
Proof.
  intros Hlt Ho. rewrite tx_bind_run. unfold getField. cbn [heap].
  rewrite lookup_app_l by done. rewrite Ho. unfold unmarshalImage.
  rewrite tx_bind_run.
  destruct (truthy (obj_get name o)); [|reflexivity].
  rewrite tx_bind_run, unmarshallAttributeValue_run.
  destruct (unmarshall (obj_get name o)) as [u|]; [|reflexivity].
  unfold setField. cbn [heap ctxIssues]. by rewrite alter_last.
Qed.

(** The hook computes [unmarshalRecord] on a copy appended to the heap;
    it adds one issue exactly when it stops at an image. *)
Lemma transform_run object s :
  (object < length (heap s))%nat ->
  unmarshallDynamoDBTransform unmarshall object s =
  let r := unmarshalRecord unmarshall (ownFields (heap s !! object)) in
  (match snd r with None => Some (length (heap s)) | Some _ => None end,
   mkStore (heap s ++ [VObj (fst r)])
     (ctxIssues s ++
        match snd r with None => [] | Some n => [unmarshallIssue n] end)).
Proof.
  destruct s as [h c]. cbn [heap ctxIssues]. intros Hlt.
  set (o := ownFields (h !! object)).
  assert (Ho : ownFields (h !! object) = o) by reflexivity. clearbody o.
  unfold unmarshallDynamoDBTransform, unmarshalRecord.
  rewrite tx_bind_run. unfold spread at 1. cbn [heap ctxIssues]. rewrite Ho.
  rewrite tx_bind_run. unfold getField at 1. cbn [heap ctxIssues].
  rewrite lookup_app_l by done. rewrite Ho.
  rewrite tx_bind_run, unmarshallAttributeValue_run. cbn [heap ctxIssues].
  destruct (unmarshall (obj_get "Keys" o)) as [uk|]; [|reflexivity].
  rewrite tx_bind_run. unfold setField at 1. cbn [heap ctxIssues].
  rewrite alter_last. cbn [setProp].
  rewrite (image_block_run "NewImage" object h o) by done.
  destruct (unmarshalImage unmarshall "NewImage" o (obj_set "Keys" uk o))
    as [r2|n]; [|reflexivity].
  rewrite (image_block_run "OldImage" object h o) by done.
  destruct (unmarshalImage unmarshall "OldImage" o r2) as [r3|n];
    [|reflexivity].
  cbn. by rewrite app_nil_r.
Qed.

Lemma unmarshalImage_frame name o cell cell' k :
  unmarshalImage unmarshall name o cell = inl cell' -> k <> name ->
  obj_get k cell' = obj_get k cell /\ obj_has k cell' = obj_has k cell.
Proof.
  unfold unmarshalImage. intros H Hne.
  destruct (truthy (obj_get name o)); [|by injection H as <-].
  destruct (unmarshall (obj_get name o)); [|discriminate].
  injection H as <-. by rewrite obj_get_set_ne, obj_has_set_ne.
Qed.

(** Whatever the hook leaves in its copy differs from the argument at
    most in [Keys], [NewImage] and [OldImage]. *)
Lemma unmarshalRecord_frame o k :
  ~ In k imageNames ->
  obj_get k (fst (unmarshalRecord unmarshall o)) = obj_get k o /\
  obj_has k (fst (unmarshalRecord unmarshall o)) = obj_has k o.
Proof.
  unfold imageNames. cbn [In]. intros Hk.
  assert (k <> "Keys" /\ k <> "NewImage" /\ k <> "OldImage") as (Hk1 & Hk2 & Hk3).
  { repeat split; intros ->; tauto. }
  unfold unmarshalRecord.
  destruct (unmarshall (obj_get "Keys" o)) as [uk|]; [|done].
  pose proof (obj_get_set_ne k "Keys" uk o Hk1) as Hg.
  pose proof (obj_has_set_ne k "Keys" uk o Hk1) as Hh.
  destruct (unmarshalImage unmarshall "NewImage" o (obj_set "Keys" uk o))
    as [r2|n] eqn:E2; [|done].
  destruct (unmarshalImage_frame _ _ _ _ k E2 Hk2) as [Hg2 Hh2].
  destruct (unmarshalImage unmarshall "OldImage" o r2) as [r3|n] eqn:E3;
    cbn [fst]; [|split; congruence].
  destruct (unmarshalImage_frame _ _ _ _ k E3 Hk3) as [Hg3 Hh3].
  split; congruence.
Qed.

(** C9: the hook does not mutate its argument.  It works on a copy in a
    new cell, so every cell of the caller's heap, the argument among
    them, is as before; and the returned object agrees with the argument
    on every field other than [Keys], [NewImage] and [OldImage]. *)
Theorem transform_leaves_argument_unchanged (object : loc) (s : store) :
  (object < length (heap s))%nat ->
  (forall l : loc,
      (l < length (heap s))%nat ->
      heap (snd (unmarshallDynamoDBTransform unmarshall object s)) !! l =
      heap s !! l) /\
  (forall result,
      fst (unmarshallDynamoDBTransform unmarshall object s) = Some result ->
      result = length (heap s) /\ result <> object /\
      exists copy,
        heap (snd (unmarshallDynamoDBTransform unmarshall object s)) !! result =
          Some (VObj copy) /\
        forall k,
          ~ In k imageNames ->
          obj_get k copy = obj_get k (ownFields (heap s !! object)) /\
          obj_has k copy = obj_has k (ownFields (heap s !! object))).
Proof.
  intros Hlt. rewrite transform_run by done. cbv zeta. cbn [fst snd heap].
  split.
  - intros l Hl. by rewrite lookup_app_l.
  - intros result Hres.
    destruct (snd (unmarshalRecord unmarshall (ownFields (heap s !! object))));
      [discriminate|].
    injection Hres as <-. split; [done|]. split; [lia|].
    eexists. split.
    + rewrite lookup_app_r by done. by rewrite Nat.sub_diag.
    + intros k Hk. by apply unmarshalRecord_frame.
Qed.

Lemma unmarshalRecord_failure o :
  unmarshall (obj_get "Keys" o) = None \/
  (truthy (obj_get "NewImage" o) = true /\
   unmarshall (obj_get "NewImage" o) = None) \/
  (truthy (obj_get "OldImage" o) = true /\
   unmarshall (obj_get "OldImage" o) = None) ->
  exists name,
    snd (unmarshalRecord unmarshall o) = Some name /\
    In name imageNames /\ unmarshall (obj_get name o) = None.
Proof.
  unfold unmarshalRecord, unmarshalImage, imageNames. cbn [In]. intros H.
  destruct (unmarshall (obj_get "Keys" o)) as [uk|] eqn:Ek;
    [|exists "Keys"; auto].
  destruct (truthy (obj_get "NewImage" o)) eqn:Tn.
  - destruct (unmarshall (obj_get "NewImage" o)) as [un|] eqn:En;
      [|exists "NewImage"; auto].
    destruct (truthy (obj_get "OldImage" o)) eqn:To.
    + destruct (unmarshall (obj_get "OldImage" o)) as [uo|] eqn:Eo;
        [|exists "OldImage"; auto 6].
      destruct H as [H|[[_ H]|[_ H]]]; discriminate.
    + destruct H as [H|[[_ H]|[H _]]]; discriminate.
  - destruct (truthy (obj_get "OldImage" o)) eqn:To.
    + destruct (unmarshall (obj_get "OldImage" o)) as [uo|] eqn:Eo;
        [|exists "OldImage"; auto 6].
      destruct H as [H|[[H _]|[_ H]]]; discriminate.
    + destruct H as [H|[[H _]|[H _]]]; discriminate.
Qed.

(** What the validation library gets from the hook. *)
Lemma asTransform_run input :
  asTransform (unmarshallDynamoDBTransform unmarshall) input =
  match unmarshalRecord unmarshall (fieldsOf input) with
  | (copy, None) => Valid (VObj copy)
  | (_, Some name) => Invalid (unmarshallIssue name) []
  end.
Proof.
  unfold asTransform. rewrite transform_run by (cbn; lia).
  cbv zeta. cbn [heap ctxIssues length].
  replace (ownFields ([input] !! 0%nat)) with (fieldsOf input) by by destruct input.
  by destruct (unmarshalRecord unmarshall (fieldsOf input)) as [copy [name|]].
Qed.

Lemma changeRecord_issue name v o :
  snd (unmarshalRecord unmarshall o) = Some name ->
  run isoDatetime DynamoDBStreamChangeRecordBase v = Valid (VObj o) ->
  run isoDatetime (DynamoDBStreamChangeRecord unmarshall) v =
    Invalid (unmarshallIssue name) [].
Proof.
  intros Hname Hbase. unfold DynamoDBStreamChangeRecord.
  change (run isoDatetime (STransform ?b ?f) v)
    with (match run isoDatetime b v with
          | Valid w => f w
          | Invalid i others => Invalid i others
          end).
  rewrite Hbase, asTransform_run. cbn [fieldsOf].
  destruct (unmarshalRecord unmarshall o) as [copy failed].
  cbn [snd] in Hname. by subst failed.
Qed.

Lemma streamEvent_issue x fs rs n rfs :
  obj_get "Records" fs = VArr rs ->
  rs !! n = Some (VObj rfs) ->
  In x (issues_of (run isoDatetime (DynamoDBStreamChangeRecord unmarshall)
                     (obj_get "dynamodb" rfs))) ->
  In (prefixIssue (Key "Records")
        (prefixIssue (Idx n) (prefixIssue (Key "dynamodb") x)))
     (issues_of (run isoDatetime (DynamoDBStreamSchema unmarshall) (VObj fs))).
Proof.
  intros Hrecs Hn Hx. unfold DynamoDBStreamSchema.
  apply run_object_issue.
  apply props_issue with (SArray (DynamoDBStreamRecord unmarshall) true);
    [by left|].
  rewrite Hrecs. apply run_array_issue.
  apply (elements_issue isoDatetime _ 0%nat rs n (VObj rfs)); [done|].
  unfold DynamoDBStreamRecord. apply run_object_issue.
  apply props_issue with (DynamoDBStreamChangeRecord unmarshall); [|done].
  cbn [In]. tauto.
Qed.

(** C2: when [Keys], [NewImage] or [OldImage] cannot be unmarshalled, the
    hook returns [z.NEVER] and adds exactly one issue: it is fatal, its
    path is the name of that image and its message says that the image
    could not be unmarshalled.  The change record then fails with this
    issue alone, and [parse] of the stream envelope throws a [ParseError]
    whose cause holds the issue at the record's place in the event. *)
Theorem unmarshall_failure_is_one_fatal_issue (o : fields) :
  unmarshall (obj_get "Keys" o) = None \/
  (truthy (obj_get "NewImage" o) = true /\
   unmarshall (obj_get "NewImage" o) = None) \/
  (truthy (obj_get "OldImage" o) = true /\
   unmarshall (obj_get "OldImage" o) = None) ->
  exists name,
    In name imageNames /\
    unmarshall (obj_get name o) = None /\
    unmarshallIssue name =
      mkIssue "custom" None
        ("Could not unmarshall " ++ name ++ " in DynamoDB stream record")
        [Key name] true /\
    (forall (object : loc) (s : store),
        (object < length (heap s))%nat ->
        ownFields (heap s !! object) = o ->
        fst (unmarshallDynamoDBTransform unmarshall object s) = None /\
        ctxIssues (snd (unmarshallDynamoDBTransform unmarshall object s)) =
          ctxIssues s ++ [unmarshallIssue name]) /\
    (forall v,
        run isoDatetime DynamoDBStreamChangeRecordBase v = Valid (VObj o) ->
        run isoDatetime (DynamoDBStreamChangeRecord unmarshall) v =
          Invalid (unmarshallIssue name) []) /\
    (forall fs rs n rfs sch,
        obj_get "Records" fs = VArr rs ->
        rs !! n = Some (VObj rfs) ->
        run isoDatetime DynamoDBStreamChangeRecordBase (obj_get "dynamodb" rfs) =
          Valid (VObj o) ->
        exists e,
          parse (DynamoDBStreamEnvelope isoDatetime unmarshall) (VObj fs) sch =
            Throws e /\
          In (prefixIssue (Key "Records")
                (prefixIssue (Idx n)
                   (prefixIssue (Key "dynamodb") (unmarshallIssue name))))
             (cause e)).
Proof.
  intros H. apply unmarshalRecord_failure in H as (name & Hname & Hin & Hnone).
  exists name. repeat split; try done.
  - rewrite transform_run by done. cbv zeta. subst o. by rewrite Hname.
  - rewrite transform_run by done. cbv zeta. subst o. by rewrite Hname.
  - intros v Hbase. by apply changeRecord_issue with o.
  - intros fs rs n rfs sch Hrecs Hn Hbase.
    pose proof (changeRecord_issue name _ o Hname Hbase) as Hrec.
    assert (Hev : In (prefixIssue (Key "Records")
                        (prefixIssue (Idx n)
                           (prefixIssue (Key "dynamodb") (unmarshallIssue name))))
                    (issues_of (run isoDatetime (DynamoDBStreamSchema unmarshall)
                                  (VObj fs)))).
    { apply streamEvent_issue with rs rfs; [done|done|].
      rewrite Hrec. by left. }
    rewrite parse_of_safeParse.
    change (validate (DynamoDBStreamEnvelope isoDatetime unmarshall) sch (VObj fs))
      with (match run isoDatetime (DynamoDBStreamSchema unmarshall) (VObj fs) with
            | Valid data =>
                let acc :=
                  payloads isoDatetime (fun r => obj_get "dynamodb" (fieldsOf r))
                    [Key "dynamodb"] sch 0%nat
                    (itemsOf (obj_get "Records" (fieldsOf data))) in
                finishArr (prefixIssues (Key "Records") (fst acc)) (snd acc)
            | Invalid i others => Invalid i others
            end).
    destruct (run isoDatetime (DynamoDBStreamSchema unmarshall) (VObj fs))
      as [data|i others]; [done|].
    eexists. split; [reflexivity|]. exact Hev.
Qed.

End TransformFacts.

(** C6: for a record with view type [NEW_AND_OLD_IMAGES], keys
    [{Id: {N: "101"}}], new image [{Message: {S: "hi"}, Id: {N: "101"}}]
    and no old image, the hook succeeds; in its result [Keys] is
    [{Id: 101}], [NewImage] is [{Message: "hi", Id: 101}] and [OldImage]
    is still absent. *)
Theorem scenario_A_is_unmarshalled (convertNumber : string -> option Z)
    (fs : fields) :
  convertNumber "101" = Some 101%Z ->
  obj_get "StreamViewType" fs = VStr "NEW_AND_OLD_IMAGES" ->
  obj_get "Keys" fs = keysA ->
  obj_get "NewImage" fs = newImageA ->
  obj_has "OldImage" fs = false ->
  exists fs',
    asTransform (unmarshallDynamoDBTransform (unmarshallDynamoDB convertNumber))
      (VObj fs) = Valid (VObj fs') /\
    obj_get "Keys" fs' = VObj [("Id", VNum 101)] /\
    obj_get "NewImage" fs' = VObj [("Message", VStr "hi"); ("Id", VNum 101)] /\
    obj_has "OldImage" fs' = false /\
    obj_get "StreamViewType" fs' = VStr "NEW_AND_OLD_IMAGES".
Proof.
  intros Hnum Hview Hkeys Hnew Hold.
  assert (Hk : unmarshallDynamoDB convertNumber keysA =
               Some (VObj [("Id", VNum 101)])).
  { unfold unmarshallDynamoDB, keysA. cbn. by rewrite Hnum. }
  assert (Hn : unmarshallDynamoDB convertNumber newImageA =
               Some (VObj [("Message", VStr "hi"); ("Id", VNum 101)])).
  { unfold unmarshallDynamoDB, newImageA. cbn. by rewrite Hnum. }
  rewrite asTransform_run. cbn [fieldsOf].
  unfold unmarshalRecord, unmarshalImage.
  rewrite Hkeys, Hk, Hnew, Hn, (obj_has_false_get _ _ Hold). cbn [truthy].
  eexists. split; [reflexivity|].
  rewrite obj_get_set_eq, !obj_has_set_ne, !obj_get_set_ne, obj_get_set_eq
    by discriminate.
  rewrite !obj_get_set_ne by discriminate. done.
Qed.

Lemma scenario_A_is_unmarshalled_witness :
  decimalNumber "101" = Some 101%Z /\
  obj_get "StreamViewType" (fieldsOf changeRecordA) = VStr "NEW_AND_OLD_IMAGES" /\
  obj_get "Keys" (fieldsOf changeRecordA) = keysA /\
  obj_get "NewImage" (fieldsOf changeRecordA) = newImageA /\
  obj_has "OldImage" (fieldsOf changeRecordA) = false /\
  exists fs',
    asTransform (unmarshallDynamoDBTransform (unmarshallDynamoDB decimalNumber))
      (VObj (fieldsOf changeRecordA)) = Valid (VObj fs') /\
    obj_get "Keys" fs' = VObj [("Id", VNum 101)] /\
    obj_get "NewImage" fs' = VObj [("Message", VStr "hi"); ("Id", VNum 101)] /\
    obj_has "OldImage" fs' = false /\
    obj_get "StreamViewType" fs' = VStr "NEW_AND_OLD_IMAGES".
Proof.
  do 5 (split; [reflexivity|]).
  apply (scenario_A_is_unmarshalled decimalNumber (fieldsOf changeRecordA));
    reflexivity.
Defined.

(** Scenario A through the schema of the change record. *)
Example changeRecordA_parsed :
  run anyDatetime (DynamoDBStreamChangeRecord unmarshallDecimal) changeRecordA =
  Valid (VObj [ ("Keys", VObj [("Id", VNum 101)]);
                ("NewImage", VObj [("Message", VStr "hi"); ("Id", VNum 101)]);
                ("SequenceNumber", VStr "111");
                ("SizeBytes", VNum 26);
                ("StreamViewType", VStr "NEW_AND_OLD_IMAGES") ]).
Proof. reflexivity. Qed.

(** Scenario B: two kind tags in [Keys]. *)
Example changeRecordB_parsed :
  run anyDatetime (DynamoDBStreamChangeRecord unmarshallDecimal) changeRecordB =
  Invalid (unmarshallIssue "Keys") [].
Proof. reflexivity. Qed.

Lemma unmarshall_failure_is_one_fatal_issue_witness :
  (unmarshallDecimal (obj_get "Keys" (fieldsOf changeRecordB)) = None \/
   (truthy (obj_get "NewImage" (fieldsOf changeRecordB)) = true /\
    unmarshallDecimal (obj_get "NewImage" (fieldsOf changeRecordB)) = None) \/
   (truthy (obj_get "OldImage" (fieldsOf changeRecordB)) = true /\
    unmarshallDecimal (obj_get "OldImage" (fieldsOf changeRecordB)) = None)) /\
  exists name,
    In name imageNames /\
    unmarshallDecimal (obj_get name (fieldsOf changeRecordB)) = None /\
    unmarshallIssue name =
      mkIssue "custom" None
        ("Could not unmarshall " ++ name ++ " in DynamoDB stream record")
        [Key name] true /\
    (forall (object : loc) (s : store),
        (object < length (heap s))%nat ->
        ownFields (heap s !! object) = fieldsOf changeRecordB ->
        fst (unmarshallDynamoDBTransform unmarshallDecimal object s) = None /\
        ctxIssues (snd (unmarshallDynamoDBTransform unmarshallDecimal object s)) =
          ctxIssues s ++ [unmarshallIssue name]) /\
    (forall v,
        run anyDatetime DynamoDBStreamChangeRecordBase v =
          Valid (VObj (fieldsOf changeRecordB)) ->
        run anyDatetime (DynamoDBStreamChangeRecord unmarshallDecimal) v =
          Invalid (unmarshallIssue name) []) /\
    (forall fs rs n rfs sch,
        obj_get "Records" fs = VArr rs ->
        rs !! n = Some (VObj rfs) ->
        run anyDatetime DynamoDBStreamChangeRecordBase (obj_get "dynamodb" rfs) =
          Valid (VObj (fieldsOf changeRecordB)) ->
        exists e,
          parse (DynamoDBStreamEnvelope anyDatetime unmarshallDecimal) (VObj fs)
            sch = Throws e /\
          In (prefixIssue (Key "Records")
                (prefixIssue (Idx n)
                   (prefixIssue (Key "dynamodb") (unmarshallIssue name))))
             (cause e)).
Proof.
  split; [left; reflexivity|].
  apply (unmarshall_failure_is_one_fatal_issue anyDatetime unmarshallDecimal
           (fieldsOf changeRecordB)).
  left. reflexivity.
Defined.

(** Scenario B through the stream envelope: the issue is reported under
    the record's place in the event. *)
Example scenario_B_parse_throws :
  exists others,
    parse (DynamoDBStreamEnvelope anyDatetime unmarshallDecimal)
      (streamEvent [streamRecord "1" changeRecordB]) SAny =
    Throws (mkParseError "Failed to parse DynamoDB Stream body"
              (mkIssue "custom" None
                 "Could not unmarshall Keys in DynamoDB stream record"
                 [Key "Records"; Idx 0; Key "dynamodb"; Key "Keys"] true
               :: others)).
Proof. eexists. reflexivity. Qed.

(** A caller's schema that rejects the unmarshalled keys: the issue is
    reported where the payload lies in the event. *)
Example caller_issue_is_located :
  parse (DynamoDBStreamEnvelope anyDatetime unmarshallDecimal)
    (streamEvent [streamRecord "1" changeRecordA])
    (SObject [("Keys", SObject [("Id", SString)] false)] false) =
  Throws (mkParseError "Failed to parse DynamoDB Stream body"
            [ mkIssue "invalid_type" (Some "string")
                "Invalid input: expected string, received number"
                [Key "Records"; Idx 0; Key "dynamodb"; Key "Keys"; Key "Id"]
                false ]).
Proof. reflexivity. Qed.

Lemma transform_leaves_argument_unchanged_witness :
  (0 < length (heap (mkStore [changeRecordA] [])))%nat /\
  (forall l : loc,
      (l < length (heap (mkStore [changeRecordA] [])))%nat ->
      heap (snd (unmarshallDynamoDBTransform unmarshallDecimal 0%nat
                   (mkStore [changeRecordA] []))) !! l =
      heap (mkStore [changeRecordA] []) !! l) /\
  (forall result,
      fst (unmarshallDynamoDBTransform unmarshallDecimal 0%nat
             (mkStore [changeRecordA] [])) = Some result ->
      result = length (heap (mkStore [changeRecordA] [])) /\ result <> 0%nat /\
      exists copy,
        heap (snd (unmarshallDynamoDBTransform unmarshallDecimal 0%nat
                     (mkStore [changeRecordA] []))) !! result =
          Some (VObj copy) /\
        forall k,
          ~ In k imageNames ->
          obj_get k copy =
            obj_get k (ownFields (heap (mkStore [changeRecordA] []) !! 0%nat)) /\
          obj_has k copy =
            obj_has k (ownFields (heap (mkStore [changeRecordA] []) !! 0%nat))).
Proof.
  split; [cbn; lia|].
  apply (transform_leaves_argument_unchanged unmarshallDecimal 0%nat
           (mkStore [changeRecordA] [])).
  cbn. lia.
Defined.

(** The heap after the hook ran on scenario A: the argument in cell 0 is
    still marshalled, the unmarshalled copy is in cell 1. *)
Example transform_on_scenario_A :
  unmarshallDynamoDBTransform unmarshallDecimal 0%nat (mkStore [changeRecordA] []) =
  (Some 1%nat,
   mkStore
     [ changeRecordA;
       VObj [ ("Keys", VObj [("Id", VNum 101)]);
              ("NewImage", VObj [("Message", VStr "hi"); ("Id", VNum 101)]);
              ("SequenceNumber", VStr "111");
              ("SizeBytes", VNum 26);
              ("StreamViewType", VStr "NEW_AND_OLD_IMAGES") ] ]
     []).
Proof. reflexivity. Qed.

Lemma gateway_aggregates_missing_fields_witness :
  In ("rawPath", SString) gatewayOuter /\
  obj_get "rawPath" (fieldsOf eventNoPathNoBody) = VUndefined /\
  obj_get "body" (fieldsOf eventNoPathNoBody) = VUndefined /\
  run anyDatetime messageSchema VUndefined =
    Invalid (invalid_type "object" VUndefined) [] /\
  exists e,
    safeParse (ApiGatewayV2Envelope anyDatetime gatewayOuter)
      (VObj (fieldsOf eventNoPathNoBody)) messageSchema =
      Failure e (VObj (fieldsOf eventNoPathNoBody)) /\
    parse (ApiGatewayV2Envelope anyDatetime gatewayOuter)
      (VObj (fieldsOf eventNoPathNoBody)) messageSchema = Throws e /\
    In (prefixIssue (Key "rawPath") (invalid_type "string" VUndefined)) (cause e) /\
    Forall (fun x => In (prefixIssue (Key "body") x) (cause e))
      [invalid_type "object" VUndefined] /\
    forall k sk x,
      In (k, sk) gatewayOuter -> k <> "body" ->
      obj_get k (fieldsOf eventNoPathNoBody) = VUndefined ->
      In x (issues_of (run anyDatetime sk VUndefined)) ->
      In (prefixIssue (Key k) x) (cause e).
Proof.
  split; [by left|]. do 3 (split; [reflexivity|]).
  apply (gateway_aggregates_missing_fields anyDatetime gatewayOuter messageSchema
           (fieldsOf eventNoPathNoBody) (invalid_type "object" VUndefined) []);
    try reflexivity.
  by left.
Defined.

(** What the unit test of the gateway envelope expects of [parse] for an
    event without body: the message, and the one issue at [body]. *)
Example gateway_test_parse_throws :
  parse (ApiGatewayV2Envelope anyDatetime gatewayOuter) eventNoBody messageSchema =
  Throws
    (mkParseError "Failed to parse API Gateway HTTP body"
       [ mkIssue "invalid_type" (Some "object")
           "Invalid input: expected object, received undefined"
           [Key "body"] false ]).
Proof. reflexivity. Qed.

(** The outcome that the unit test of the gateway envelope expects for an
    event without [rawPath] and without body: both issues, in this order. *)
Example gateway_test_two_issues :
  safeParse (ApiGatewayV2Envelope anyDatetime gatewayOuter) eventNoPathNoBody
    messageSchema =
  Failure
    (mkParseError "Failed to parse API Gateway HTTP body"
       [ mkIssue "invalid_type" (Some "string")
           "Invalid input: expected string, received undefined"
           [Key "rawPath"] false;
         mkIssue "invalid_type" (Some "object")
           "Invalid input: expected object, received undefined"
           [Key "body"] false ])
    eventNoPathNoBody.
Proof. reflexivity. Qed.

Lemma batch_output_follows_records_witness :
  (safeParse (DynamoDBStreamEnvelope anyDatetime unmarshallDecimal)
     twoRecordEvent keysSchema = Success (VArr [keysOut; keysOut]) \/
   parse (DynamoDBStreamEnvelope anyDatetime unmarshallDecimal)
     twoRecordEvent keysSchema = Returns (VArr [keysOut; keysOut])) /\
  exists rs outs,
    obj_get "Records" (fieldsOf twoRecordEvent) = VArr rs /\
    VArr [keysOut; keysOut] = VArr outs /\
    length outs = length rs /\
    forall i r,
      rs !! i = Some r ->
      exists r' o,
        run anyDatetime (DynamoDBStreamRecord unmarshallDecimal) r = Valid r' /\
        run anyDatetime keysSchema (obj_get "dynamodb" (fieldsOf r')) = Valid o /\
        outs !! i = Some o.
Proof.
  split; [left; reflexivity|].
  eapply (batch_output_follows_records anyDatetime "DynamoDB Stream"
            (DynamoDBStreamRecord unmarshallDecimal) true _
            (fun r => obj_get "dynamodb" (fieldsOf r)) [Key "dynamodb"]
            twoRecordEvent keysSchema (VArr [keysOut; keysOut])).
  left.
  exact (eq_refl :
           safeParse (DynamoDBStreamEnvelope anyDatetime unmarshallDecimal)
             twoRecordEvent keysSchema = Success (VArr [keysOut; keysOut])).
Defined.

(** * Further properties of the schemas and of the hook *)

(** ** What an object schema reads and what it writes *)

Section ObjectFacts.

Variable isoDatetime : string -> bool.

Local Abbreviation run := (run isoDatetime).
Local Abbreviation props := (props isoDatetime).
Local Abbreviation elements := (elements isoDatetime).
Local Abbreviation entries := (entries isoDatetime).

Lemma props_step fs k sk sh :
  props fs ((k, sk) :: sh) =
  handlePropertyResult k fs (run sk (obj_get k fs)) (props fs sh).
Proof. reflexivity. Qed.

(** An object schema looks at the input only through the keys of its shape. *)
Lemma props_ext fs fs' sh :
  (forall k, In k (map fst sh) ->
             obj_get k fs = obj_get k fs' /\ obj_has k fs = obj_has k fs') ->
  props fs sh = props fs' sh.
Proof.
  induction sh as [|[k sk] sh IH]; intros H; [done|].
  rewrite !props_step.
  destruct (H k) as [Hg Hh]; [by left|].
  rewrite IH by (intros k' Hk'; apply H; by right).
  unfold handlePropertyResult. by rewrite Hg, Hh.
Qed.

Lemma run_object_ext sh fs fs' :
  (forall k, In k (map fst sh) ->
             obj_get k fs = obj_get k fs' /\ obj_has k fs = obj_has k fs') ->
  run (SObject sh false) (VObj fs) = run (SObject sh false) (VObj fs').
Proof.
  intros H. rewrite !run_SObject. cbv zeta. by rewrite (props_ext fs fs' sh H).
Qed.

(** The output of an object schema has no key outside the shape. *)
Lemma props_out_none fs sh k :
  ~ In k (map fst sh) ->
  obj_get k (snd (props fs sh)) = VUndefined /\
  obj_has k (snd (props fs sh)) = false.
Proof.
  induction sh as [|[k' sk'] sh IH]; intros Hk; [done|].
  rewrite props_step.
  assert (Hne : String.eqb k k' = false).
  { apply String.eqb_neq. intros ->. apply Hk. by left. }
  assert (Hrest : ~ In k (map fst sh)) by (intros Hin; apply Hk; by right).
  specialize (IH Hrest).
  unfold handlePropertyResult.
  destruct (run sk' (obj_get k' fs)) as [w|i others]; [|done].
  destruct w; cbn [snd obj_get obj_has]; rewrite ?Hne; try done.
  destruct (obj_has k' fs); cbn [obj_get obj_has]; rewrite ?Hne; done.
Qed.

(** On success, the output holds under each key of the shape the value
    that the key's schema produced. *)
Lemma props_out_get fs sh k sk :
  NoDup (map fst sh) -> In (k, sk) sh -> fst (props fs sh) = [] ->
  run sk (obj_get k fs) = Valid (obj_get k (snd (props fs sh))).
Proof.
  induction sh as [|[k' sk'] sh IH]; intros Hnd Hin Hnil; [done|].
  rewrite props_step in Hnil |- *.
  cbn [map fst] in Hnd. apply NoDup_cons in Hnd as [Hk' Hnd].
  unfold handlePropertyResult in *.
  destruct (run sk' (obj_get k' fs)) as [w|i others] eqn:E; [|discriminate].
  destruct Hin as [[= -> ->]|Hin].
  - rewrite E. f_equal.
    assert (Hnone : obj_get k (snd (props fs sh)) = VUndefined).
    { apply props_out_none. by rewrite <- list_elem_of_In. }
    destruct w; cbn [snd obj_get]; rewrite ?String.eqb_refl; try done.
    destruct (obj_has k fs); cbn [obj_get]; rewrite ?String.eqb_refl; done.
  - assert (Hne : String.eqb k k' = false).
    { apply String.eqb_neq. intros ->. apply Hk'.
      apply list_elem_of_In. change k' with (fst (k', sk)). by apply in_map. }
    assert (Hnil' : fst (props fs sh) = []) by (by destruct w).
    rewrite (IH Hnd Hin Hnil'). f_equal.
    destruct w; cbn [snd obj_get]; rewrite ?Hne; try done.
    destruct (obj_has k' fs); cbn [obj_get]; rewrite ?Hne; done.
Qed.

(** A record of unconstrained values is returned as it is. *)
Lemma entries_any fs : entries SAny fs = ([], fs).
Proof.
  induction fs as [|[k x] fs IH]; [done|].
  change (entries SAny ((k, x) :: fs))
    with (handleEntryResult k (run SAny x) (entries SAny fs)).
  by rewrite IH.
Qed.

Lemma run_record_any v w : run (SRecord SAny) v = Valid w -> w = v.
Proof.
  destruct v; try discriminate. rewrite run_SRecord, entries_any.
  by intros [= <-].
Qed.

Lemma entries_record_any fs :
  fst (entries (SRecord SAny) fs) = [] -> snd (entries (SRecord SAny) fs) = fs.
Proof.
  induction fs as [|[k x] fs IH]; [done|].
  change (entries (SRecord SAny) ((k, x) :: fs))
    with (handleEntryResult k (run (SRecord SAny) x) (entries (SRecord SAny) fs)).
  unfold handleEntryResult.
  destruct (run (SRecord SAny) x) as [w|i others] eqn:E; [|discriminate].
  cbn [fst snd]. intros H. apply run_record_any in E. by rewrite E, IH.
Qed.

Lemma run_record_record_any v w :
  run (SRecord (SRecord SAny)) v = Valid w -> w = v.
Proof.
  destruct v; try discriminate. rewrite run_SRecord. unfold finish.
  destruct (fst (entries (SRecord SAny) fields0)) eqn:E; [|discriminate].
  intros [= <-]. by rewrite entries_record_any.
Qed.

Lemma run_optional_record_any v w :
  run (SOptional (SRecord SAny)) v = Valid w -> w = v.
Proof.
  destruct v as [| | | | | | | |fs]; try (by intros [= <-]); try discriminate.
  intros H. by apply run_record_any.
Qed.

(** Whether the output has a key of the shape: always when the key's
    schema produced a value, and for an [undefined] result only when the
    input has the key. *)
Lemma props_out_has fs sh k sk :
  NoDup (map fst sh) -> In (k, sk) sh -> fst (props fs sh) = [] ->
  obj_has k (snd (props fs sh)) =
  match obj_get k (snd (props fs sh)) with
  | VUndefined => obj_has k fs
  | _ => true
  end.
Proof.
  induction sh as [|[k' sk'] sh IH]; intros Hnd Hin Hnil; [done|].
  rewrite props_step in Hnil |- *.
  cbn [map fst] in Hnd. apply NoDup_cons in Hnd as [Hk' Hnd].
  unfold handlePropertyResult in *.
  destruct (run sk' (obj_get k' fs)) as [w|i others] eqn:E; [|discriminate].
  destruct Hin as [[= -> ->]|Hin].
  - destruct (props_out_none fs sh k) as [Hg Hh];
      [by rewrite <- list_elem_of_In|].
    destruct w; cbn [snd obj_get obj_has]; rewrite ?String.eqb_refl; try done.
    destruct (obj_has k fs) eqn:Hin; cbn [obj_get obj_has];
      rewrite ?String.eqb_refl, ?Hg, ?Hh; done.
  - assert (Hne : String.eqb k k' = false).
    { apply String.eqb_neq. intros ->. apply Hk'.
      apply list_elem_of_In. change k' with (fst (k', sk)). by apply in_map. }
    assert (Hnil' : fst (props fs sh) = []) by (by destruct w).
    specialize (IH Hnd Hin Hnil').
    destruct w; cbn [snd obj_get obj_has]; rewrite ?Hne; try done.
    destruct (obj_has k' fs); cbn [obj_get obj_has]; rewrite ?Hne; done.
Qed.

End ObjectFacts.

(** ** The hook, case by case *)

Lemma obj_keys_set k v fs :
  obj_has k fs = true -> obj_keys (obj_set k v fs) = obj_keys fs.
Proof.
  unfold obj_keys. induction fs as [|[k' v'] fs IH]; simpl; [discriminate|].
  destruct (String.eqb k k'); simpl; [done|].
  intros H. by rewrite IH.
Qed.

Lemma obj_has_set k k' v fs :
  obj_has k fs = true -> obj_has k (obj_set k' v fs) = true.
Proof.
  induction fs as [|[k0 v0] fs IH]; simpl; [discriminate|].
  destruct (String.eqb k k0) eqn:E, (String.eqb k' k0) eqn:E'; simpl;
    rewrite ?E; try done.
Qed.

Lemma truthy_has k fs : truthy (obj_get k fs) = true -> obj_has k fs = true.
Proof.
  induction fs as [|[k' v'] fs IH]; simpl; [discriminate|].
  by destruct (String.eqb k k').
Qed.

Section HookFacts.

Variable unmarshall : value -> option value.

Lemma unmarshalImage_inl name o cell cell' :
  unmarshalImage unmarshall name o cell = inl cell' ->
  (truthy (obj_get name o) = true /\
   exists u, unmarshall (obj_get name o) = Some u /\ cell' = obj_set name u cell) \/
  (truthy (obj_get name o) = false /\ cell' = cell).
Proof.
  unfold unmarshalImage.
  destruct (truthy (obj_get name o)); [|intros [= <-]; by right].
  destruct (unmarshall (obj_get name o)) as [u|]; [|discriminate].
  intros [= <-]. left. eauto.
Qed.

Lemma unmarshalImage_inr name o cell n :
  unmarshalImage unmarshall name o cell = inr n ->
  n = name /\ truthy (obj_get name o) = true /\
  unmarshall (obj_get name o) = None.
Proof.
  unfold unmarshalImage.
  destruct (truthy (obj_get name o)); [|discriminate].
  destruct (unmarshall (obj_get name o)) as [u|]; [discriminate|].
  by intros [= <-].
Qed.

(** The fields of the copy when the hook succeeds. *)
Lemma unmarshalRecord_ok o :
  snd (unmarshalRecord unmarshall o) = None ->
  unmarshall (obj_get "Keys" o) =
    Some (obj_get "Keys" (fst (unmarshalRecord unmarshall o))) /\
  forall name, name = "NewImage" \/ name = "OldImage" ->
    (truthy (obj_get name o) = true ->
     unmarshall (obj_get name o) =
       Some (obj_get name (fst (unmarshalRecord unmarshall o)))) /\
    (truthy (obj_get name o) = false ->
     obj_get name (fst (unmarshalRecord unmarshall o)) = obj_get name o /\
     obj_has name (fst (unmarshalRecord unmarshall o)) = obj_has name o).
Proof.
  unfold unmarshalRecord.
  destruct (unmarshall (obj_get "Keys" o)) as [uk|] eqn:Ek; [|discriminate].
  destruct (unmarshalImage unmarshall "NewImage" o (obj_set "Keys" uk o))
    as [r2|n] eqn:E2; [|discriminate].
  destruct (unmarshalImage unmarshall "OldImage" o r2) as [r3|n] eqn:E3;
    [|discriminate].
  intros _. cbn [fst].
  apply unmarshalImage_inl in E2, E3.
  destruct E2 as [(T2 & u2 & U2 & ->)|(T2 & ->)],
           E3 as [(T3 & u3 & U3 & ->)|(T3 & ->)];
    (split;
     [ rewrite ?obj_get_set_ne by discriminate; by rewrite obj_get_set_eq
     | intros name [->| ->]; split; intros HT; try congruence;
       rewrite ?obj_get_set_eq, ?obj_has_set_ne, ?obj_get_set_ne by discriminate;
       rewrite ?obj_get_set_eq; try congruence; try done ]).
Qed.

Lemma unmarshalRecord_ok_iff o :
  snd (unmarshalRecord unmarshall o) = None <->
  is_Some (unmarshall (obj_get "Keys" o)) /\
  (truthy (obj_get "NewImage" o) = true ->
   is_Some (unmarshall (obj_get "NewImage" o))) /\
  (truthy (obj_get "OldImage" o) = true ->
   is_Some (unmarshall (obj_get "OldImage" o))).
Proof.
  unfold unmarshalRecord, unmarshalImage.
  destruct (unmarshall (obj_get "Keys" o)) as [uk|];
    [|split; [discriminate|intros [[? [=]] _]]].
  destruct (truthy (obj_get "NewImage" o));
    [destruct (unmarshall (obj_get "NewImage" o)) as [un|]|];
    (destruct (truthy (obj_get "OldImage" o));
       [destruct (unmarshall (obj_get "OldImage" o)) as [uo|]|]);
    cbn [snd]; split; try discriminate; try (intros _; repeat split; eauto; done);
    intros (_ & H2 & H3);
    try (destruct (H2 eq_refl) as [? [=]]);
    try (destruct (H3 eq_refl) as [? [=]]).
Qed.

(** X1: the hook returns an object exactly when [Keys] unmarshals and
    every image that is present unmarshals; it then adds no issue. *)
Theorem transform_succeeds_iff (object : loc) (s : store) :
  (object < length (heap s))%nat ->
  (is_Some (fst (unmarshallDynamoDBTransform unmarshall object s)) <->
   is_Some (unmarshall (obj_get "Keys" (ownFields (heap s !! object)))) /\
   (truthy (obj_get "NewImage" (ownFields (heap s !! object))) = true ->
    is_Some (unmarshall (obj_get "NewImage" (ownFields (heap s !! object))))) /\
   (truthy (obj_get "OldImage" (ownFields (heap s !! object))) = true ->
    is_Some (unmarshall (obj_get "OldImage" (ownFields (heap s !! object)))))) /\
  (is_Some (fst (unmarshallDynamoDBTransform unmarshall object s)) ->
   ctxIssues (snd (unmarshallDynamoDBTransform unmarshall object s)) =
     ctxIssues s).
Proof.
  intros Hlt. rewrite transform_run by done. cbv zeta. cbn [fst snd ctxIssues].
  rewrite <- unmarshalRecord_ok_iff.
  destruct (snd (unmarshalRecord unmarshall (ownFields (heap s !! object)))).
  - split; [split|]; try discriminate; by intros [? [=]].
  - split; [split; eauto|]. intros _. by rewrite app_nil_r.
Qed.

(** X2: in the object that the hook returns, [Keys] is the unmarshalled
    [Keys] of the argument; an image that is present is replaced by its
    unmarshalled form, and one that is absent (or falsy) is left as it
    was, absent if it was absent. *)
Theorem transform_result_fields (object : loc) (s : store) (result : loc) :
  (object < length (heap s))%nat ->
  fst (unmarshallDynamoDBTransform unmarshall object s) = Some result ->
  exists copy,
    heap (snd (unmarshallDynamoDBTransform unmarshall object s)) !! result =
      Some (VObj copy) /\
    unmarshall (obj_get "Keys" (ownFields (heap s !! object))) =
      Some (obj_get "Keys" copy) /\
    forall name, name = "NewImage" \/ name = "OldImage" ->
      (truthy (obj_get name (ownFields (heap s !! object))) = true ->
       unmarshall (obj_get name (ownFields (heap s !! object))) =
         Some (obj_get name copy)) /\
      (truthy (obj_get name (ownFields (heap s !! object))) = false ->
       obj_get name copy = obj_get name (ownFields (heap s !! object)) /\
       obj_has name copy = obj_has name (ownFields (heap s !! object))).
Proof.
  intros Hlt. rewrite transform_run by done. cbv zeta. cbn [fst snd heap].
  destruct (snd (unmarshalRecord unmarshall (ownFields (heap s !! object))))
    eqn:E; [discriminate|].
  intros [= <-]. eexists. split.
  - rewrite lookup_app_r by done. by rewrite Nat.sub_diag.
  - by apply unmarshalRecord_ok.
Qed.

(** X3: the hook stops at the first map that fails, in the order [Keys],
    [NewImage], [OldImage], and the one issue it adds names that map,
    whatever the later maps are. *)
Theorem transform_reports_first_failure (object : loc) (s : store) :
  (object < length (heap s))%nat ->
  (unmarshall (obj_get "Keys" (ownFields (heap s !! object))) = None ->
   ctxIssues (snd (unmarshallDynamoDBTransform unmarshall object s)) =
     ctxIssues s ++ [unmarshallIssue "Keys"]) /\
  (is_Some (unmarshall (obj_get "Keys" (ownFields (heap s !! object)))) ->
   truthy (obj_get "NewImage" (ownFields (heap s !! object))) = true ->
   unmarshall (obj_get "NewImage" (ownFields (heap s !! object))) = None ->
   ctxIssues (snd (unmarshallDynamoDBTransform unmarshall object s)) =
     ctxIssues s ++ [unmarshallIssue "NewImage"]) /\
  (is_Some (unmarshall (obj_get "Keys" (ownFields (heap s !! object)))) ->
   (truthy (obj_get "NewImage" (ownFields (heap s !! object))) = true ->
    is_Some (unmarshall (obj_get "NewImage" (ownFields (heap s !! object))))) ->
   truthy (obj_get "OldImage" (ownFields (heap s !! object))) = true ->
   unmarshall (obj_get "OldImage" (ownFields (heap s !! object))) = None ->
   ctxIssues (snd (unmarshallDynamoDBTransform unmarshall object s)) =
     ctxIssues s ++ [unmarshallIssue "OldImage"]).
Proof.
  intros Hlt. rewrite transform_run by done. cbv zeta. cbn [snd ctxIssues].
  set (o := ownFields (heap s !! object)).
  unfold unmarshalRecord, unmarshalImage. repeat split.
  - intros ->. done.
  - intros [uk ->] -> ->. done.
  - intros [uk ->] Hn To Eo.
    destruct (truthy (obj_get "NewImage" o)).
    + destruct (Hn eq_refl) as [un ->]. by rewrite To, Eo.
    + by rewrite To, Eo.
Qed.

(** X4: the object that the hook returns has the keys of its argument,
    in the same order: the hook adds no key, drops none and moves none. *)
Theorem transform_keeps_keys (object : loc) (s : store) (result : loc) :
  (object < length (heap s))%nat ->
  obj_has "Keys" (ownFields (heap s !! object)) = true ->
  fst (unmarshallDynamoDBTransform unmarshall object s) = Some result ->
  exists copy,
    heap (snd (unmarshallDynamoDBTransform unmarshall object s)) !! result =
      Some (VObj copy) /\
    obj_keys copy = obj_keys (ownFields (heap s !! object)).
Proof.
  intros Hlt Hkeys. rewrite transform_run by done. cbv zeta. cbn [fst snd heap].
  set (o := ownFields (heap s !! object)) in *.
  destruct (snd (unmarshalRecord unmarshall o)) eqn:E; [discriminate|].
  intros [= <-]. eexists. split.
  { rewrite lookup_app_r by done. by rewrite Nat.sub_diag. }
  revert E. unfold unmarshalRecord.
  destruct (unmarshall (obj_get "Keys" o)) as [uk|]; [|discriminate].
  destruct (unmarshalImage unmarshall "NewImage" o (obj_set "Keys" uk o))
    as [r2|n] eqn:E2; [|discriminate].
  destruct (unmarshalImage unmarshall "OldImage" o r2) as [r3|n] eqn:E3;
    [|discriminate].
  intros _. cbn [fst].
  apply unmarshalImage_inl in E2, E3.
  assert (K1 : obj_keys (obj_set "Keys" uk o) = obj_keys o)
    by by apply obj_keys_set.
  assert (K2 : obj_keys r2 = obj_keys o).
  { destruct E2 as [(T2 & u2 & _ & ->)|(_ & ->)]; [|done].
    rewrite obj_keys_set; [done|]. apply obj_has_set. by apply truthy_has. }
  destruct E3 as [(T3 & u3 & _ & ->)|(_ & ->)]; [|done].
  rewrite obj_keys_set; [done|].
  destruct E2 as [(T2 & u2 & _ & ->)|(_ & ->)];
    repeat apply obj_has_set; by apply truthy_has.
Qed.

End HookFacts.

(** ** The change record, from input to output *)

Section ChangeRecordFacts.

Variable isoDatetime : string -> bool.
Variable unmarshall : value -> option value.

Local Abbreviation run := (run isoDatetime).
Local Abbreviation props := (props isoDatetime).

Lemma run_STransform inner fn v :
  run (STransform inner fn) v =
  match run inner v with
  | Valid w => fn w
  | Invalid i others => Invalid i others
  end.
Proof. reflexivity. Qed.

(** The hook behind any object schema that declares the three maps as
    [dynamodb.ts] does: what it makes of the maps of the input. *)
Lemma hook_output sh v out :
  NoDup (map fst sh) ->
  In ("Keys", SRecord (SRecord SAny)) sh ->
  In ("NewImage", SOptional (SRecord SAny)) sh ->
  In ("OldImage", SOptional (SRecord SAny)) sh ->
  run (STransform (SObject sh false)
         (asTransform (unmarshallDynamoDBTransform unmarshall))) v = Valid out ->
  exists fs,
    v = VObj fs /\
    fst (props fs sh) = [] /\
    snd (unmarshalRecord unmarshall (snd (props fs sh))) = None /\
    out = VObj (fst (unmarshalRecord unmarshall (snd (props fs sh)))) /\
    unmarshall (obj_get "Keys" fs) = Some (obj_get "Keys" (fieldsOf out)) /\
    forall name, name = "NewImage" \/ name = "OldImage" ->
      (obj_get name fs = VUndefined ->
       obj_get name (fieldsOf out) = VUndefined /\
       obj_has name (fieldsOf out) = obj_has name fs) /\
      (obj_get name fs <> VUndefined ->
       unmarshall (obj_get name fs) = Some (obj_get name (fieldsOf out))).
Proof.
  intros Hnd Hk Hn Ho. rewrite run_STransform.
  destruct (run (SObject sh false) v) as [w|i others] eqn:E; [|discriminate].
  apply run_object_inv in E as (fs & -> & Hnil & ->).
  rewrite asTransform_run. cbn [fieldsOf].
  set (o := snd (props fs sh)).
  destruct (unmarshalRecord unmarshall o) as [copy failed] eqn:Eu.
  destruct failed as [name|]; [discriminate|]. intros [= <-].
  pose proof (unmarshalRecord_ok unmarshall o) as Hok.
  rewrite Eu in Hok. cbn [fst snd] in Hok. destruct (Hok eq_refl) as [Hkeys Himg].
  pose proof (props_out_get isoDatetime fs sh _ _ Hnd Hk Hnil) as Ek.
  apply run_record_record_any in Ek. fold o in Ek.
  exists fs. cbn [fst snd fieldsOf].
  split; [done|]. split; [done|]. fold o. rewrite Eu. cbn [fst snd].
  split; [done|]. split; [done|]. split; [by rewrite <- Ek|].
  intros name Hname.
  assert (Hin : In (name, SOptional (SRecord SAny)) sh)
    by (destruct Hname as [-> | ->]; done).
  pose proof (props_out_get isoDatetime fs sh _ _ Hnd Hin Hnil) as Ei.
  pose proof (props_out_has isoDatetime fs sh _ _ Hnd Hin Hnil) as Eh.
  fold o in Ei, Eh.
  pose proof (run_optional_record_any isoDatetime _ _ Ei) as Eo.
  destruct (Himg name Hname) as [Ht Hf]. rewrite Eo in Ht, Hf, Eh. split.
  - intros Hundef. rewrite Hundef in Hf, Eh.
    destruct (Hf eq_refl) as [-> ->]. by split.
  - intros Hdef. apply Ht.
    rewrite Eo in Ei. revert Ei Hdef. clear.
    destruct (obj_get name fs); try done; discriminate.
Qed.

Lemma base_NoDup :
  NoDup ["ApproximateCreationDateTime"; "Keys"; "NewImage"; "OldImage";
         "SequenceNumber"; "SizeBytes"; "StreamViewType"].
Proof. apply (bool_decide_unpack _). by vm_compute. Qed.

Lemma run_scalar_any sk x y :
  sk = SString \/ sk = SNumber \/ sk = SOptional SNumber \/
  (exists opts, sk = SEnum opts) \/ (exists lit, sk = SLiteral lit) ->
  run sk x = Valid y -> y = x.
Proof.
  intros [->|[->|[->|[[opts ->]|[lit ->]]]]]; destruct x; simpl;
    try discriminate; try (by intros [= <-]).
  - destruct (inb s opts); [by intros [= <-]|discriminate].
  - destruct (String.eqb s lit); [by intros [= <-]|discriminate].
Qed.

(** X5: a change record that validates comes out with [Keys] unmarshalled
    from the [Keys] of the input, each image that the input has
    unmarshalled from that image, an image that the input lacks still
    lacking, the four scalar fields as in the input, and no other key. *)
Theorem changeRecord_output (v out : value) :
  run (DynamoDBStreamChangeRecord unmarshall) v = Valid out ->
  exists fs,
    v = VObj fs /\
    unmarshall (obj_get "Keys" fs) = Some (obj_get "Keys" (fieldsOf out)) /\
    (forall name, name = "NewImage" \/ name = "OldImage" ->
       (obj_get name fs = VUndefined ->
        obj_get name (fieldsOf out) = VUndefined /\
        obj_has name (fieldsOf out) = obj_has name fs) /\
       (obj_get name fs <> VUndefined ->
        unmarshall (obj_get name fs) = Some (obj_get name (fieldsOf out)))) /\
    (forall k,
       In k ["ApproximateCreationDateTime"; "SequenceNumber"; "SizeBytes";
             "StreamViewType"] ->
       obj_get k (fieldsOf out) = obj_get k fs) /\
    (forall k,
       ~ In k ["ApproximateCreationDateTime"; "Keys"; "NewImage"; "OldImage";
               "SequenceNumber"; "SizeBytes"; "StreamViewType"] ->
       obj_has k (fieldsOf out) = false).
Proof.
  unfold DynamoDBStreamChangeRecord, DynamoDBStreamChangeRecordBase. intros H.
  apply hook_output in H as (fs & -> & Hnil & Hok & -> & Hkeys & Himg);
    [|exact base_NoDup|cbn [In]; tauto..].
  exists fs. split; [done|]. split; [done|]. split; [done|].
  cbn [fieldsOf] in *.
  match type of Hnil with fst (props fs ?sh) = [] => set (shp := sh) in * end.
  split.
  - intros k Hk.
    assert (Hframe : ~ In k imageNames).
    { unfold imageNames. cbn [In] in *. intros [<-|[<-|[<-|[]]]];
        repeat destruct Hk as [Hk|Hk]; try discriminate; done. }
    destruct (unmarshalRecord_frame unmarshall (snd (props fs shp)) k Hframe)
      as [-> _].
    assert (exists sk, In (k, sk) shp /\
              (sk = SString \/ sk = SNumber \/ sk = SOptional SNumber \/
               (exists opts, sk = SEnum opts) \/ (exists lit, sk = SLiteral lit)))
      as (sk & Hin & Hsk).
    { cbn [In] in Hk. destruct Hk as [<-|[<-|[<-|[<-|[]]]]];
        eexists; (split; [cbn [In shp]; eauto 8|eauto 8]). }
    pose proof (props_out_get isoDatetime fs shp k sk base_NoDup Hin Hnil) as E.
    by apply run_scalar_any in E.
  - intros k Hk.
    assert (Hframe : ~ In k imageNames).
    { unfold imageNames. cbn [In] in *. tauto. }
    destruct (unmarshalRecord_frame unmarshall (snd (props fs shp)) k Hframe)
      as [_ ->].
    by apply props_out_none.
Qed.

(** X6: the issues of a change record never mix.  Either they are the
    issues of the base schema, and the hook did not run, or the base
    schema accepted the record and there is exactly one issue, the one
    of the map that could not be unmarshalled. *)
Theorem changeRecord_issues_never_mix (v : value) (i : issue)
    (others : list issue) :
  run (DynamoDBStreamChangeRecord unmarshall) v = Invalid i others ->
  run DynamoDBStreamChangeRecordBase v = Invalid i others \/
  (is_valid (run DynamoDBStreamChangeRecordBase v) = true /\
   others = [] /\
   exists name, In name imageNames /\ i = unmarshallIssue name).
Proof.
  unfold DynamoDBStreamChangeRecord. rewrite run_STransform.
  destruct (run DynamoDBStreamChangeRecordBase v) as [w|j js]; [|by left].
  rewrite asTransform_run.
  destruct (unmarshalRecord unmarshall (fieldsOf w)) as [copy [name|]] eqn:E;
    [|discriminate].
  intros [= <- <-]. right. repeat split. exists name. split; [|done].
  revert E. unfold unmarshalRecord, imageNames. cbn [In].
  destruct (unmarshall (obj_get "Keys" (fieldsOf w))) as [uk|];
    [|intros [= _ <-]; auto].
  destruct (unmarshalImage unmarshall "NewImage" (fieldsOf w) _) as [r2|n] eqn:E2.
  - destruct (unmarshalImage unmarshall "OldImage" (fieldsOf w) r2)
      as [r3|n] eqn:E3; [discriminate|].
    apply unmarshalImage_inr in E3 as [-> _]. intros [= _ <-]. auto.
  - apply unmarshalImage_inr in E2 as [-> _]. intros [= _ <-]. auto.
Qed.

End ChangeRecordFacts.

(** ** The variants for Kinesis *)

Section KinesisFacts.

Variable isoDatetime : string -> bool.
Variable unmarshall : value -> option value.

Local Abbreviation run := (run isoDatetime).
Local Abbreviation props := (props isoDatetime).

(** What [omit] leaves of the base shape. *)
Lemma kinesisChangeRecord_shape :
  DynamoDBStreamToKinesisChangeRecord =
  SObject
    [ ("ApproximateCreationDateTime", SOptional SNumber);
      ("Keys", SRecord (SRecord SAny));
      ("NewImage", SOptional (SRecord SAny));
      ("OldImage", SOptional (SRecord SAny));
      ("SizeBytes", SNumber) ]
    false.
Proof. reflexivity. Qed.

(** What [extend] and [omit] make of the shape of a stream record. *)
Lemma kinesisRecord_shape :
  DynamoDBStreamToKinesisRecord unmarshall =
  SObject
    [ ("eventID", SString);
      ("eventName", SEnum ["INSERT"; "MODIFY"; "REMOVE"]);
      ("eventSource", SLiteral "aws:dynamodb");
      ("awsRegion", SString);
      ("dynamodb",
        STransform DynamoDBStreamToKinesisChangeRecord
          (asTransform (unmarshallDynamoDBTransform unmarshall)));
      ("userIdentity", SNullish UserIdentity);
      ("recordFormat", SLiteral "application/json");
      ("tableName", SString) ]
    false.
Proof. reflexivity. Qed.

(** X7: the change record schema for Kinesis accepts every record that
    the base schema accepts, and its output never has [SequenceNumber]
    or [StreamViewType]. *)
Theorem kinesisChangeRecord_accepts_base (v : value) :
  is_valid (run DynamoDBStreamChangeRecordBase v) = true ->
  is_valid (run DynamoDBStreamToKinesisChangeRecord v) = true /\
  forall out,
    run DynamoDBStreamToKinesisChangeRecord v = Valid out ->
    obj_has "SequenceNumber" (fieldsOf out) = false /\
    obj_has "StreamViewType" (fieldsOf out) = false.
Proof.
  rewrite kinesisChangeRecord_shape. unfold DynamoDBStreamChangeRecordBase.
  intros H.
  destruct v as [| | | | | | | |fs]; try discriminate.
  apply run_object_valid in H. rewrite !Forall_cons in H.
  destruct H as (Ha & Hk & Hn & Ho & _ & Hz & _).
  split.
  - apply run_object_valid. rewrite !Forall_cons. by repeat split.
  - intros out Hout. apply run_object_inv in Hout as (fs' & [= <-] & _ & ->).
    cbn [fieldsOf]. split; apply props_out_none; cbn [map fst In];
      intros H; repeat destruct H as [H|H]; done.
Qed.

(** X8: the change record schema for Kinesis does not look at
    [SequenceNumber] and [StreamViewType]: whatever the input holds
    there, the result is the same. *)
Theorem kinesisChangeRecord_ignores_omitted (fs : fields) (x : value) :
  run DynamoDBStreamToKinesisChangeRecord (VObj (obj_set "SequenceNumber" x fs)) =
    run DynamoDBStreamToKinesisChangeRecord (VObj fs) /\
  run DynamoDBStreamToKinesisChangeRecord (VObj (obj_set "StreamViewType" x fs)) =
    run DynamoDBStreamToKinesisChangeRecord (VObj fs).
Proof.
  rewrite kinesisChangeRecord_shape.
  split; apply run_object_ext; cbn [map fst In]; intros k Hk;
    (split; [apply obj_get_set_ne|apply obj_has_set_ne]);
    intros ->; repeat destruct Hk as [Hk|Hk]; done.
Qed.

(** X9: behind the schema for Kinesis the hook does the same work: a
    change record that validates comes out with [Keys] unmarshalled from
    the input's [Keys], each image of the input unmarshalled, a missing
    image still missing, and without the two omitted keys. *)
Theorem kinesisChangeRecord_output (v out : value) :
  run (STransform DynamoDBStreamToKinesisChangeRecord
         (asTransform (unmarshallDynamoDBTransform unmarshall))) v = Valid out ->
  exists fs,
    v = VObj fs /\
    unmarshall (obj_get "Keys" fs) = Some (obj_get "Keys" (fieldsOf out)) /\
    (forall name, name = "NewImage" \/ name = "OldImage" ->
       (obj_get name fs = VUndefined ->
        obj_get name (fieldsOf out) = VUndefined /\
        obj_has name (fieldsOf out) = obj_has name fs) /\
       (obj_get name fs <> VUndefined ->
        unmarshall (obj_get name fs) = Some (obj_get name (fieldsOf out)))) /\
    obj_has "SequenceNumber" (fieldsOf out) = false /\
    obj_has "StreamViewType" (fieldsOf out) = false.
Proof.
  rewrite kinesisChangeRecord_shape. intros H.
  apply hook_output in H as (fs & -> & Hnil & Hok & -> & Hkeys & Himg);
    [|apply (bool_decide_unpack _); by vm_compute|cbn [In]; tauto..].
  exists fs. split; [done|]. split; [done|]. split; [done|].
  cbn [fieldsOf].
  split.
  - destruct (unmarshalRecord_frame unmarshall
                (snd (props fs
                   [ ("ApproximateCreationDateTime", SOptional SNumber);
                     ("Keys", SRecord (SRecord SAny));
                     ("NewImage", SOptional (SRecord SAny));
                     ("OldImage", SOptional (SRecord SAny));
                     ("SizeBytes", SNumber) ])) "SequenceNumber") as [_ ->].
    { unfold imageNames. cbn [In]. intros H; repeat destruct H as [H|H]; done. }
    apply props_out_none. cbn [map fst In].
    intros H; repeat destruct H as [H|H]; done.
  - destruct (unmarshalRecord_frame unmarshall
                (snd (props fs
                   [ ("ApproximateCreationDateTime", SOptional SNumber);
                     ("Keys", SRecord (SRecord SAny));
                     ("NewImage", SOptional (SRecord SAny));
                     ("OldImage", SOptional (SRecord SAny));
                     ("SizeBytes", SNumber) ])) "StreamViewType") as [_ ->].
    { unfold imageNames. cbn [In]. intros H; repeat destruct H as [H|H]; done. }
    apply props_out_none. cbn [map fst In].
    intros H; repeat destruct H as [H|H]; done.
Qed.

Lemma run_literal_valid lit v :
  is_valid (run (SLiteral lit) v) = true <-> v = VStr lit.
Proof.
  destruct v; simpl; try (split; [discriminate|intros [=]]).
  destruct (String.eqb s lit) eqn:E; simpl.
  - apply String.eqb_eq in E. subst. done.
  - apply String.eqb_neq in E. split; [discriminate|]. intros [= ->]. done.
Qed.

Lemma run_string_valid v :
  is_valid (run SString v) = true <-> exists t, v = VStr t.
Proof.
  destruct v; simpl; split; try discriminate; try (intros [t [=]]); eauto.
Qed.

(** X10: a record accepted by the schema for Kinesis has the record
    format [application/json] and a table name, and its output has
    neither [eventVersion] nor [eventSourceARN]. *)
Theorem kinesisRecord_accepted (v out : value) :
  run (DynamoDBStreamToKinesisRecord unmarshall) v = Valid out ->
  exists fs,
    v = VObj fs /\
    obj_get "recordFormat" fs = VStr "application/json" /\
    (exists t, obj_get "tableName" fs = VStr t) /\
    obj_get "eventSource" fs = VStr "aws:dynamodb" /\
    obj_has "eventVersion" (fieldsOf out) = false /\
    obj_has "eventSourceARN" (fieldsOf out) = false.
Proof.
  rewrite kinesisRecord_shape. intros H.
  apply run_object_inv in H as (fs & -> & Hnil & ->).
  apply props_nil in Hnil. rewrite !Forall_cons in Hnil.
  destruct Hnil as (_ & _ & Hs & _ & _ & _ & Hf & Ht & _). cbn [fst snd] in *.
  exists fs. split; [done|].
  split; [by apply run_literal_valid|].
  split; [by apply run_string_valid|].
  split; [by apply run_literal_valid|].
  cbn [fieldsOf]. split; apply props_out_none; cbn [map fst In];
    intros H; repeat destruct H as [H|H]; done.
Qed.

(** X11: the schema for Kinesis does not look at [eventVersion] and
    [eventSourceARN], which the stream record requires. *)
Theorem kinesisRecord_ignores_omitted (fs : fields) (x : value) :
  run (DynamoDBStreamToKinesisRecord unmarshall)
    (VObj (obj_set "eventVersion" x fs)) =
    run (DynamoDBStreamToKinesisRecord unmarshall) (VObj fs) /\
  run (DynamoDBStreamToKinesisRecord unmarshall)
    (VObj (obj_set "eventSourceARN" x fs)) =
    run (DynamoDBStreamToKinesisRecord unmarshall) (VObj fs).
Proof.
  rewrite kinesisRecord_shape.
  split; apply run_object_ext; cbn [map fst In]; intros k Hk;
    (split; [apply obj_get_set_ne|apply obj_has_set_ne]);
    intros ->; repeat destruct Hk as [Hk|Hk]; done.
Qed.

(** X12: a [null] user identity.  The stream record rejects it; the
    record for Kinesis, whose [userIdentity] is nullish, stays accepted
    when its identity is replaced by [null]. *)
Theorem userIdentity_null (fs : fields) :
  is_valid (run (DynamoDBStreamRecord unmarshall)
              (VObj (obj_set "userIdentity" VNull fs))) = false /\
  (is_valid (run (DynamoDBStreamToKinesisRecord unmarshall) (VObj fs)) = true ->
   is_valid (run (DynamoDBStreamToKinesisRecord unmarshall)
               (VObj (obj_set "userIdentity" VNull fs))) = true).
Proof.
  split.
  - destruct (is_valid _) eqn:E; [|done]. exfalso.
    unfold DynamoDBStreamRecord in E. apply run_object_valid in E.
    rewrite !Forall_cons in E.
    destruct E as (_ & _ & _ & _ & _ & _ & _ & Hu & _). cbn [fst snd] in Hu.
    rewrite obj_get_set_eq in Hu. discriminate Hu.
  - rewrite kinesisRecord_shape. intros H.
    apply run_object_valid in H. apply run_object_valid.
    rewrite !Forall_cons in *. cbn [fst snd] in *.
    rewrite !obj_get_set_ne by discriminate. rewrite obj_get_set_eq.
    rewrite !obj_get_set_ne by discriminate.
    destruct H as (? & ? & ? & ? & ? & ? & ? & ? & ?). by repeat split.
Qed.

End KinesisFacts.

(** ** Stream records and stream events *)

Section EventFacts.

Variable isoDatetime : string -> bool.
Variable unmarshall : value -> option value.

Local Abbreviation run := (run isoDatetime).
Local Abbreviation props := (props isoDatetime).
Local Abbreviation elements := (elements isoDatetime).

(** X13: [UserIdentity] accepts exactly the objects whose [type] is
    [Service] and whose [principalId] is [dynamodb.amazonaws.com], and
    returns these two fields and nothing else. *)
Theorem UserIdentity_accepts (v out : value) :
  run UserIdentity v = Valid out <->
  out = VObj [ ("type", VStr "Service");
               ("principalId", VStr "dynamodb.amazonaws.com") ] /\
  exists fs,
    v = VObj fs /\
    obj_get "type" fs = VStr "Service" /\
    obj_get "principalId" fs = VStr "dynamodb.amazonaws.com".
Proof.
  unfold UserIdentity. split.
  - intros H. pose proof H as H'.
    apply run_object_inv in H' as (fs & -> & Hnil & _).
    apply props_nil in Hnil. rewrite !Forall_cons in Hnil.
    destruct Hnil as (Ht & Hp & _). cbn [fst snd] in *.
    apply (run_enum_valid isoDatetime) in Ht as (t & Ht & [<-|[]]).
    apply (run_literal_valid isoDatetime) in Hp.
    split; [|by exists fs].
    rewrite run_SObject in H. cbv zeta in H. rewrite !props_step in H.
    rewrite Ht, Hp in H. cbn in H. by injection H as <-.
  - intros [-> (fs & -> & Ht & Hp)].
    rewrite run_SObject. cbv zeta. rewrite !props_step, Ht, Hp. reflexivity.
Qed.

Lemma record_NoDup :
  NoDup ["eventID"; "eventName"; "eventVersion"; "eventSource"; "awsRegion";
         "eventSourceARN"; "dynamodb"; "userIdentity"].
Proof. apply (bool_decide_unpack _). by vm_compute. Qed.

(** X14: a stream record that validates has [aws:dynamodb] as event
    source and one of the three event names; it comes out with its six
    scalar fields unchanged, with the validated change record under
    [dynamodb], and without any key that the schema does not declare. *)
Theorem streamRecord_output (v out : value) :
  run (DynamoDBStreamRecord unmarshall) v = Valid out ->
  exists fs,
    v = VObj fs /\
    obj_get "eventSource" fs = VStr "aws:dynamodb" /\
    (exists n, obj_get "eventName" fs = VStr n /\
               In n ["INSERT"; "MODIFY"; "REMOVE"]) /\
    (forall k,
       In k ["eventID"; "eventName"; "eventVersion"; "eventSource";
             "awsRegion"; "eventSourceARN"] ->
       obj_get k (fieldsOf out) = obj_get k fs) /\
    run (DynamoDBStreamChangeRecord unmarshall) (obj_get "dynamodb" fs) =
      Valid (obj_get "dynamodb" (fieldsOf out)) /\
    (forall k,
       ~ In k ["eventID"; "eventName"; "eventVersion"; "eventSource";
               "awsRegion"; "eventSourceARN"; "dynamodb"; "userIdentity"] ->
       obj_has k (fieldsOf out) = false).
Proof.
  unfold DynamoDBStreamRecord. intros H.
  apply run_object_inv in H as (fs & -> & Hnil & ->).
  match type of Hnil with fst (props fs ?sh) = [] => set (shp := sh) in * end.
  pose proof Hnil as Hall. apply props_nil in Hall.
  unfold shp in Hall. rewrite !Forall_cons in Hall.
  destruct Hall as (_ & Hn & _ & Hs & _). cbn [fst snd] in *.
  exists fs. split; [done|].
  split; [by apply (run_literal_valid isoDatetime)|].
  split; [by apply (run_enum_valid isoDatetime)|].
  cbn [fieldsOf]. split; [|split].
  - intros k Hk.
    assert (exists sk, In (k, sk) shp /\
              (sk = SString \/ sk = SNumber \/ sk = SOptional SNumber \/
               (exists opts, sk = SEnum opts) \/ (exists lit, sk = SLiteral lit)))
      as (sk & Hin & Hsk).
    { cbn [In] in Hk. destruct Hk as [<-|[<-|[<-|[<-|[<-|[<-|[]]]]]]];
        eexists; (split; [cbn [In shp]; eauto 10|eauto 8]). }
    pose proof (props_out_get isoDatetime fs shp k sk record_NoDup Hin Hnil) as E.
    by apply (run_scalar_any isoDatetime) in E.
  - apply (props_out_get isoDatetime fs shp "dynamodb"); [exact record_NoDup| |done].
    cbn [In shp]. tauto.
  - intros k Hk. by apply props_out_none.
Qed.

Lemma run_optional_undefined inner :
  run (SOptional inner) VUndefined = Valid VUndefined.
Proof. reflexivity. Qed.

Lemma elements_valid el i xs :
  fst (elements el i xs) = [] <->
  Forall (fun x => is_valid (run el x) = true) xs.
Proof.
  revert i. induction xs as [|x xs IH]; intros i.
  - split; [constructor|done].
  - change (elements el i (x :: xs))
      with (handleElementResult (Idx i) (run el x) (elements el (S i) xs)).
    rewrite Forall_cons, <- (IH (S i)). unfold handleElementResult.
    destruct (run el x) as [w|j others]; cbn [fst is_valid].
    + tauto.
    + split; [discriminate|]. intros [? _]. discriminate.
Qed.

Lemma run_nonempty_array_valid el v :
  is_valid (run (SArray el true) v) = true <->
  exists x xs, v = VArr (x :: xs) /\
    Forall (fun y => is_valid (run el y) = true) (x :: xs).
Proof.
  split.
  - destruct (run (SArray el true) v) as [w|] eqn:E; [|discriminate].
    intros _. apply run_array_inv in E as (xs & -> & Hnil & _ & Hne).
    destruct xs as [|x xs]; [by specialize (Hne eq_refl)|].
    exists x, xs. split; [done|]. by apply (elements_valid el 0).
  - intros (x & xs & -> & Hall). rewrite run_SArray.
    apply (elements_valid el 0) in Hall. by rewrite Hall.
Qed.

(** X15: in a validated stream event the records come out one for one
    and in order: under [Records] the output has as many values as the
    input has records, and the value at each index is the validated
    record of that index. *)
Theorem streamEvent_records_in_order (v out : value) :
  run (DynamoDBStreamSchema unmarshall) v = Valid out ->
  exists fs rs outs,
    v = VObj fs /\
    obj_get "Records" fs = VArr rs /\
    obj_get "Records" (fieldsOf out) = VArr outs /\
    length outs = length rs /\
    forall i r,
      rs !! i = Some r ->
      exists o, outs !! i = Some o /\
                run (DynamoDBStreamRecord unmarshall) r = Valid o.
Proof.
  unfold DynamoDBStreamSchema. intros H.
  apply run_object_inv in H as (fs & -> & Hnil & ->).
  rewrite props_step in Hnil |- *.
  destruct (run (SArray (DynamoDBStreamRecord unmarshall) true)
              (obj_get "Records" fs)) as [w|i others] eqn:E; [|discriminate].
  apply run_array_inv in E as (xs & Hxs & Hel & -> & _).
  apply elements_nil in Hel.
  exists fs, xs, (snd (elements (DynamoDBStreamRecord unmarshall) 0 xs)).
  split; [done|]. split; [done|]. split; [reflexivity|].
  split; [symmetry; by apply Forall2_length in Hel|].
  intros n r Hr.
  destruct (Forall2_lookup_l _ _ _ _ _ Hel Hr) as (o & Ho & Hrun). eauto.
Qed.

(** X16: one bad record fails the whole event, and says where: every
    issue of the record at index [n] is among the issues of the event,
    with [Records] and [n] put in front of its path. *)
Theorem streamEvent_locates_record_issues (fs : fields) (rs : list value)
    (n : nat) (r : value) (x : issue) :
  obj_get "Records" fs = VArr rs ->
  rs !! n = Some r ->
  In x (issues_of (run (DynamoDBStreamRecord unmarshall) r)) ->
  is_valid (run (DynamoDBStreamSchema unmarshall) (VObj fs)) = false /\
  In (prefixIssue (Key "Records") (prefixIssue (Idx n) x))
     (issues_of (run (DynamoDBStreamSchema unmarshall) (VObj fs))).
Proof.
  intros Hrecs Hn Hx.
  assert (Hin : In (prefixIssue (Key "Records") (prefixIssue (Idx n) x))
                  (issues_of (run (DynamoDBStreamSchema unmarshall) (VObj fs)))).
  { unfold DynamoDBStreamSchema. apply run_object_issue.
    apply props_issue with (SArray (DynamoDBStreamRecord unmarshall) true);
      [by left|].
    rewrite Hrecs. apply run_array_issue.
    by apply (elements_issue isoDatetime _ 0%nat rs n r). }
  split; [|done].
  by destruct (run (DynamoDBStreamSchema unmarshall) (VObj fs)).
Qed.

(** X17: a stream event is read through its seven declared keys only: a
    key outside them changes nothing in the result, and never shows up
    in the output. *)
Theorem streamEvent_ignores_unknown_keys (fs : fields) (k : string)
    (x : value) :
  ~ In k ["Records"; "window"; "state"; "shardId"; "eventSourceARN";
          "isFinalInvokeForWindow"; "isWindowTerminatedEarly"] ->
  run (DynamoDBStreamSchema unmarshall) (VObj (obj_set k x fs)) =
    run (DynamoDBStreamSchema unmarshall) (VObj fs) /\
  forall out,
    run (DynamoDBStreamSchema unmarshall) (VObj (obj_set k x fs)) = Valid out ->
    obj_has k (fieldsOf out) = false.
Proof.
  intros Hk. unfold DynamoDBStreamSchema. split.
  - apply run_object_ext. cbn [map fst]. intros k' Hk'.
    assert (k' <> k) by (intros ->; done).
    by rewrite obj_get_set_ne, obj_has_set_ne.
  - intros out Hout. apply run_object_inv in Hout as (fs' & _ & _ & ->).
    cbn [fieldsOf]. by apply props_out_none.
Qed.

(** X18: the six other fields of a stream event are optional: an event
    that has none of them is accepted exactly when [Records] is a
    non-empty array in which every record is accepted. *)
Theorem streamEvent_with_records_only (fs : fields) :
  (forall k,
     In k ["window"; "state"; "shardId"; "eventSourceARN";
           "isFinalInvokeForWindow"; "isWindowTerminatedEarly"] ->
     obj_get k fs = VUndefined) ->
  (is_valid (run (DynamoDBStreamSchema unmarshall) (VObj fs)) = true <->
   exists r rs,
     obj_get "Records" fs = VArr (r :: rs) /\
     Forall (fun y => is_valid (run (DynamoDBStreamRecord unmarshall) y) = true)
       (r :: rs)).
Proof.
  intros Hopt. unfold DynamoDBStreamSchema.
  rewrite run_object_valid, !Forall_cons. cbn [fst snd].
  rewrite (Hopt "window"), (Hopt "state"), (Hopt "shardId"),
    (Hopt "eventSourceARN"), (Hopt "isFinalInvokeForWindow"),
    (Hopt "isWindowTerminatedEarly") by (cbn [In]; auto 10).
  rewrite run_nonempty_array_valid, !run_optional_undefined. cbn [is_valid].
  split; [tauto|]. intros H. by repeat split.
Qed.

Lemma run_iso_valid v :
  is_valid (run SIsoDatetime v) = true <->
  exists t, v = VStr t /\ isoDatetime t = true.
Proof.
  destruct v; simpl; try (split; [discriminate|intros (t & [=] & _)]).
  destruct (isoDatetime s) eqn:E; simpl.
  - split; [eauto|done].
  - split; [discriminate|]. intros (t & [= <-] & Ht). congruence.
Qed.

(** X19: the tumbling window of an accepted stream event is either
    absent or an object whose [start] and [end] are strings in the ISO
    date-time format. *)
Theorem streamEvent_window (fs : fields) :
  is_valid (run (DynamoDBStreamSchema unmarshall) (VObj fs)) = true ->
  obj_get "window" fs = VUndefined \/
  exists w t1 t2,
    obj_get "window" fs = VObj w /\
    obj_get "start" w = VStr t1 /\ isoDatetime t1 = true /\
    obj_get "end" w = VStr t2 /\ isoDatetime t2 = true.
Proof.
  unfold DynamoDBStreamSchema. rewrite run_object_valid, !Forall_cons.
  cbn [fst snd]. intros (_ & Hw & _).
  destruct (obj_get "window" fs) as [| | | | | | | |w]; try discriminate;
    [by left|right].
  change (is_valid (run (SObject [("start", SIsoDatetime); ("end", SIsoDatetime)]
                           false) (VObj w)) = true) in Hw.
  rewrite run_object_valid, !Forall_cons in Hw. cbn [fst snd] in Hw.
  destruct Hw as (Hs & He & _).
  apply run_iso_valid in Hs as (t1 & Hs & H1).
  apply run_iso_valid in He as (t2 & He & H2).
  exists w, t1, t2. done.
Qed.

End EventFacts.

(** ** The further properties on the concrete records *)

Lemma transform_succeeds_iff_witness :
  ((0%nat < length (heap (mkStore [changeRecordA] [])))%nat) /\
  ((is_Some (fst (unmarshallDynamoDBTransform unmarshallDecimal 0%nat (mkStore [changeRecordA] []))) <->
   is_Some (unmarshallDecimal (obj_get "Keys" (ownFields (heap (mkStore [changeRecordA] []) !! 0%nat)))) /\
   (truthy (obj_get "NewImage" (ownFields (heap (mkStore [changeRecordA] []) !! 0%nat))) = true ->
    is_Some (unmarshallDecimal (obj_get "NewImage" (ownFields (heap (mkStore [changeRecordA] []) !! 0%nat))))) /\
   (truthy (obj_get "OldImage" (ownFields (heap (mkStore [changeRecordA] []) !! 0%nat))) = true ->
    is_Some (unmarshallDecimal (obj_get "OldImage" (ownFields (heap (mkStore [changeRecordA] []) !! 0%nat)))))) /\
  (is_Some (fst (unmarshallDynamoDBTransform unmarshallDecimal 0%nat (mkStore [changeRecordA] []))) ->
   ctxIssues (snd (unmarshallDynamoDBTransform unmarshallDecimal 0%nat (mkStore [changeRecordA] []))) =
     ctxIssues (mkStore [changeRecordA] []))).
Proof.
  split; [cbn; lia|].
  apply (transform_succeeds_iff unmarshallDecimal 0%nat (mkStore [changeRecordA] []));
    [cbn; lia].
Defined.

Lemma transform_result_fields_witness :
  ((0%nat < length (heap (mkStore [changeRecordA] [])))%nat) /\
  (fst (unmarshallDynamoDBTransform unmarshallDecimal 0%nat (mkStore [changeRecordA] [])) = Some 1%nat) /\
  (exists copy,
    heap (snd (unmarshallDynamoDBTransform unmarshallDecimal 0%nat (mkStore [changeRecordA] []))) !! 1%nat =
      Some (VObj copy) /\
    unmarshallDecimal (obj_get "Keys" (ownFields (heap (mkStore [changeRecordA] []) !! 0%nat))) =
      Some (obj_get "Keys" copy) /\
    forall name, name = "NewImage" \/ name = "OldImage" ->
      (truthy (obj_get name (ownFields (heap (mkStore [changeRecordA] []) !! 0%nat))) = true ->
       unmarshallDecimal (obj_get name (ownFields (heap (mkStore [changeRecordA] []) !! 0%nat))) =
         Some (obj_get name copy)) /\
      (truthy (obj_get name (ownFields (heap (mkStore [changeRecordA] []) !! 0%nat))) = false ->
       obj_get name copy = obj_get name (ownFields (heap (mkStore [changeRecordA] []) !! 0%nat)) /\
       obj_has name copy = obj_has name (ownFields (heap (mkStore [changeRecordA] []) !! 0%nat)))).
Proof.
  split; [cbn; lia|].
  split; [reflexivity|].
  apply (transform_result_fields unmarshallDecimal 0%nat (mkStore [changeRecordA] []) 1%nat);
    [cbn; lia|reflexivity].
Defined.

Lemma transform_reports_first_failure_witness :
  ((0%nat < length (heap (mkStore [changeRecordBadImage] [])))%nat) /\
  ((unmarshallDecimal (obj_get "Keys" (ownFields (heap (mkStore [changeRecordBadImage] []) !! 0%nat))) = None ->
   ctxIssues (snd (unmarshallDynamoDBTransform unmarshallDecimal 0%nat (mkStore [changeRecordBadImage] []))) =
     ctxIssues (mkStore [changeRecordBadImage] []) ++ [unmarshallIssue "Keys"]) /\
  (is_Some (unmarshallDecimal (obj_get "Keys" (ownFields (heap (mkStore [changeRecordBadImage] []) !! 0%nat)))) ->
   truthy (obj_get "NewImage" (ownFields (heap (mkStore [changeRecordBadImage] []) !! 0%nat))) = true ->
   unmarshallDecimal (obj_get "NewImage" (ownFields (heap (mkStore [changeRecordBadImage] []) !! 0%nat))) = None ->
   ctxIssues (snd (unmarshallDynamoDBTransform unmarshallDecimal 0%nat (mkStore [changeRecordBadImage] []))) =
     ctxIssues (mkStore [changeRecordBadImage] []) ++ [unmarshallIssue "NewImage"]) /\
  (is_Some (unmarshallDecimal (obj_get "Keys" (ownFields (heap (mkStore [changeRecordBadImage] []) !! 0%nat)))) ->
   (truthy (obj_get "NewImage" (ownFields (heap (mkStore [changeRecordBadImage] []) !! 0%nat))) = true ->
    is_Some (unmarshallDecimal (obj_get "NewImage" (ownFields (heap (mkStore [changeRecordBadImage] []) !! 0%nat))))) ->
   truthy (obj_get "OldImage" (ownFields (heap (mkStore [changeRecordBadImage] []) !! 0%nat))) = true ->
   unmarshallDecimal (obj_get "OldImage" (ownFields (heap (mkStore [changeRecordBadImage] []) !! 0%nat))) = None ->
   ctxIssues (snd (unmarshallDynamoDBTransform unmarshallDecimal 0%nat (mkStore [changeRecordBadImage] []))) =
     ctxIssues (mkStore [changeRecordBadImage] []) ++ [unmarshallIssue "OldImage"])).
Proof.
  split; [cbn; lia|].
  apply (transform_reports_first_failure unmarshallDecimal 0%nat (mkStore [changeRecordBadImage] []));
    [cbn; lia].
Defined.

Lemma transform_keeps_keys_witness :
  ((0%nat < length (heap (mkStore [changeRecordC] [])))%nat) /\
  (obj_has "Keys" (ownFields (heap (mkStore [changeRecordC] []) !! 0%nat)) = true) /\
  (fst (unmarshallDynamoDBTransform unmarshallDecimal 0%nat (mkStore [changeRecordC] [])) = Some 1%nat) /\
  (exists copy,
    heap (snd (unmarshallDynamoDBTransform unmarshallDecimal 0%nat (mkStore [changeRecordC] []))) !! 1%nat =
      Some (VObj copy) /\
    obj_keys copy = obj_keys (ownFields (heap (mkStore [changeRecordC] []) !! 0%nat))).
Proof.
  split; [cbn; lia|].
  split; [reflexivity|].
  split; [reflexivity|].
  apply (transform_keeps_keys unmarshallDecimal 0%nat (mkStore [changeRecordC] []) 1%nat);
    [cbn; lia|reflexivity|reflexivity].
Defined.

Lemma changeRecord_output_witness :
  (run anyDatetime (DynamoDBStreamChangeRecord unmarshallDecimal) changeRecordA = Valid changeRecordAOut) /\
  (exists fs,
    changeRecordA = VObj fs /\
    unmarshallDecimal (obj_get "Keys" fs) = Some (obj_get "Keys" (fieldsOf changeRecordAOut)) /\
    (forall name, name = "NewImage" \/ name = "OldImage" ->
       (obj_get name fs = VUndefined ->
        obj_get name (fieldsOf changeRecordAOut) = VUndefined /\
        obj_has name (fieldsOf changeRecordAOut) = obj_has name fs) /\
       (obj_get name fs <> VUndefined ->
        unmarshallDecimal (obj_get name fs) = Some (obj_get name (fieldsOf changeRecordAOut)))) /\
    (forall k,
       In k ["ApproximateCreationDateTime"; "SequenceNumber"; "SizeBytes";
             "StreamViewType"] ->
       obj_get k (fieldsOf changeRecordAOut) = obj_get k fs) /\
    (forall k,
       ~ In k ["ApproximateCreationDateTime"; "Keys"; "NewImage"; "OldImage";
               "SequenceNumber"; "SizeBytes"; "StreamViewType"] ->
       obj_has k (fieldsOf changeRecordAOut) = false)).
Proof.
  split; [reflexivity|].
  apply (changeRecord_output anyDatetime unmarshallDecimal changeRecordA changeRecordAOut);
    [reflexivity].
Defined.

Lemma changeRecord_issues_never_mix_witness :
  (run anyDatetime (DynamoDBStreamChangeRecord unmarshallDecimal) changeRecordBadImage = Invalid (unmarshallIssue "NewImage") (@nil issue)) /\
  (run anyDatetime DynamoDBStreamChangeRecordBase changeRecordBadImage = Invalid (unmarshallIssue "NewImage") (@nil issue) \/
  (is_valid (run anyDatetime DynamoDBStreamChangeRecordBase changeRecordBadImage) = true /\
   (@nil issue) = [] /\
   exists name, In name imageNames /\ (unmarshallIssue "NewImage") = unmarshallIssue name)).
Proof.
  split; [reflexivity|].
  apply (changeRecord_issues_never_mix anyDatetime unmarshallDecimal changeRecordBadImage (unmarshallIssue "NewImage") (@nil issue));
    [reflexivity].
Defined.

Lemma kinesisChangeRecord_accepts_base_witness :
  (is_valid (run anyDatetime DynamoDBStreamChangeRecordBase changeRecordA) = true) /\
  (is_valid (run anyDatetime DynamoDBStreamToKinesisChangeRecord changeRecordA) = true /\
  forall out,
    run anyDatetime DynamoDBStreamToKinesisChangeRecord changeRecordA = Valid out ->
    obj_has "SequenceNumber" (fieldsOf out) = false /\
    obj_has "StreamViewType" (fieldsOf out) = false).
Proof.
  split; [reflexivity|].
  apply (kinesisChangeRecord_accepts_base anyDatetime changeRecordA);
    [reflexivity].
Defined.

Lemma kinesisChangeRecord_output_witness :
  (run anyDatetime (STransform DynamoDBStreamToKinesisChangeRecord
         (asTransform (unmarshallDynamoDBTransform unmarshallDecimal))) kinesisChangeRecordA = Valid kinesisChangeRecordAOut) /\
  (exists fs,
    kinesisChangeRecordA = VObj fs /\
    unmarshallDecimal (obj_get "Keys" fs) = Some (obj_get "Keys" (fieldsOf kinesisChangeRecordAOut)) /\
    (forall name, name = "NewImage" \/ name = "OldImage" ->
       (obj_get name fs = VUndefined ->
        obj_get name (fieldsOf kinesisChangeRecordAOut) = VUndefined /\
        obj_has name (fieldsOf kinesisChangeRecordAOut) = obj_has name fs) /\
       (obj_get name fs <> VUndefined ->
        unmarshallDecimal (obj_get name fs) = Some (obj_get name (fieldsOf kinesisChangeRecordAOut)))) /\
    obj_has "SequenceNumber" (fieldsOf kinesisChangeRecordAOut) = false /\
    obj_has "StreamViewType" (fieldsOf kinesisChangeRecordAOut) = false).
Proof.
  split; [reflexivity|].
  apply (kinesisChangeRecord_output anyDatetime unmarshallDecimal kinesisChangeRecordA kinesisChangeRecordAOut);
    [reflexivity].
Defined.

Lemma kinesisRecord_accepted_witness :
  (run anyDatetime (DynamoDBStreamToKinesisRecord unmarshallDecimal) kinesisRecordA = Valid kinesisRecordAOut) /\
  (exists fs,
    kinesisRecordA = VObj fs /\
    obj_get "recordFormat" fs = VStr "application/json" /\
    (exists t, obj_get "tableName" fs = VStr t) /\
    obj_get "eventSource" fs = VStr "aws:dynamodb" /\
    obj_has "eventVersion" (fieldsOf kinesisRecordAOut) = false /\
    obj_has "eventSourceARN" (fieldsOf kinesisRecordAOut) = false).
Proof.
  split; [reflexivity|].
  apply (kinesisRecord_accepted anyDatetime unmarshallDecimal kinesisRecordA kinesisRecordAOut);
    [reflexivity].
Defined.

Lemma streamRecord_output_witness :
  (run anyDatetime (DynamoDBStreamRecord unmarshallDecimal) (streamRecord "1" changeRecordA) = Valid (streamRecordOut "1" changeRecordAOut)) /\
  (exists fs,
    (streamRecord "1" changeRecordA) = VObj fs /\
    obj_get "eventSource" fs = VStr "aws:dynamodb" /\
    (exists n, obj_get "eventName" fs = VStr n /\
               In n ["INSERT"; "MODIFY"; "REMOVE"]) /\
    (forall k,
       In k ["eventID"; "eventName"; "eventVersion"; "eventSource";
             "awsRegion"; "eventSourceARN"] ->
       obj_get k (fieldsOf (streamRecordOut "1" changeRecordAOut)) = obj_get k fs) /\
    run anyDatetime (DynamoDBStreamChangeRecord unmarshallDecimal) (obj_get "dynamodb" fs) =
      Valid (obj_get "dynamodb" (fieldsOf (streamRecordOut "1" changeRecordAOut))) /\
    (forall k,
       ~ In k ["eventID"; "eventName"; "eventVersion"; "eventSource";
               "awsRegion"; "eventSourceARN"; "dynamodb"; "userIdentity"] ->
       obj_has k (fieldsOf (streamRecordOut "1" changeRecordAOut)) = false)).
Proof.
  split; [reflexivity|].
  apply (streamRecord_output anyDatetime unmarshallDecimal (streamRecord "1" changeRecordA) (streamRecordOut "1" changeRecordAOut));
    [reflexivity].
Defined.

Lemma streamEvent_records_in_order_witness :
  (run anyDatetime (DynamoDBStreamSchema unmarshallDecimal) twoRecordEvent = Valid twoRecordEventOut) /\
  (exists fs rs outs,
    twoRecordEvent = VObj fs /\
    obj_get "Records" fs = VArr rs /\
    obj_get "Records" (fieldsOf twoRecordEventOut) = VArr outs /\
    length outs = length rs /\
    forall i r,
      rs !! i = Some r ->
      exists o, outs !! i = Some o /\
                run anyDatetime (DynamoDBStreamRecord unmarshallDecimal) r = Valid o).
Proof.
  split; [reflexivity|].
  apply (streamEvent_records_in_order anyDatetime unmarshallDecimal twoRecordEvent twoRecordEventOut);
    [reflexivity].
Defined.

Lemma streamEvent_locates_record_issues_witness :
  (obj_get "Records" [("Records", VArr mixedRecords)] = VArr mixedRecords) /\
  (mixedRecords !! 1%nat = Some (streamRecord "2" changeRecordB)) /\
  (In (prefixIssue (Key "dynamodb") (unmarshallIssue "Keys")) (issues_of (run anyDatetime (DynamoDBStreamRecord unmarshallDecimal) (streamRecord "2" changeRecordB)))) /\
  (is_valid (run anyDatetime (DynamoDBStreamSchema unmarshallDecimal) (VObj [("Records", VArr mixedRecords)])) = false /\
  In (prefixIssue (Key "Records") (prefixIssue (Idx 1%nat) (prefixIssue (Key "dynamodb") (unmarshallIssue "Keys"))))
     (issues_of (run anyDatetime (DynamoDBStreamSchema unmarshallDecimal) (VObj [("Records", VArr mixedRecords)])))).
Proof.
  split; [reflexivity|].
  split; [reflexivity|].
  split; [by left|].
  apply (streamEvent_locates_record_issues anyDatetime unmarshallDecimal [("Records", VArr mixedRecords)] mixedRecords 1%nat (streamRecord "2" changeRecordB) (prefixIssue (Key "dynamodb") (unmarshallIssue "Keys")));
    [reflexivity|reflexivity|by left].
Defined.

Lemma streamEvent_ignores_unknown_keys_witness :
  (~ In "traceId" ["Records"; "window"; "state"; "shardId"; "eventSourceARN";
          "isFinalInvokeForWindow"; "isWindowTerminatedEarly"]) /\
  (run anyDatetime (DynamoDBStreamSchema unmarshallDecimal) (VObj (obj_set "traceId" (VStr "abc") (fieldsOf twoRecordEvent))) =
    run anyDatetime (DynamoDBStreamSchema unmarshallDecimal) (VObj (fieldsOf twoRecordEvent)) /\
  forall out,
    run anyDatetime (DynamoDBStreamSchema unmarshallDecimal) (VObj (obj_set "traceId" (VStr "abc") (fieldsOf twoRecordEvent))) = Valid out ->
    obj_has "traceId" (fieldsOf out) = false).
Proof.
  split; [cbn [In]; intros H; repeat destruct H as [H|H]; done|].
  apply (streamEvent_ignores_unknown_keys anyDatetime unmarshallDecimal (fieldsOf twoRecordEvent) "traceId" (VStr "abc"));
    [cbn [In]; intros H; repeat destruct H as [H|H]; done].
Defined.

Lemma streamEvent_window_witness :
  (is_valid (run anyDatetime (DynamoDBStreamSchema unmarshallDecimal) (VObj (fieldsOf windowEvent))) = true) /\
  (obj_get "window" (fieldsOf windowEvent) = VUndefined \/
  exists w t1 t2,
    obj_get "window" (fieldsOf windowEvent) = VObj w /\
    obj_get "start" w = VStr t1 /\ anyDatetime t1 = true /\
    obj_get "end" w = VStr t2 /\ anyDatetime t2 = true).
Proof.
  split; [reflexivity|].
  apply (streamEvent_window anyDatetime unmarshallDecimal (fieldsOf windowEvent));
    [reflexivity].
Defined.

Lemma streamEvent_with_records_only_witness :
  ((forall k,
     In k ["window"; "state"; "shardId"; "eventSourceARN";
           "isFinalInvokeForWindow"; "isWindowTerminatedEarly"] ->
     obj_get k (fieldsOf twoRecordEvent) = VUndefined)) /\
  ((is_valid (run anyDatetime (DynamoDBStreamSchema unmarshallDecimal) (VObj (fieldsOf twoRecordEvent))) = true <->
   exists r rs,
     obj_get "Records" (fieldsOf twoRecordEvent) = VArr (r :: rs) /\
     Forall (fun y => is_valid (run anyDatetime (DynamoDBStreamRecord unmarshallDecimal) y) = true)
       (r :: rs))).
Proof.
  split; [intros k Hk; cbn [In] in Hk; repeat destruct Hk as [<-|Hk]; try reflexivity; done|].
  apply (streamEvent_with_records_only anyDatetime unmarshallDecimal (fieldsOf twoRecordEvent));
    [intros k Hk; cbn [In] in Hk; repeat destruct Hk as [<-|Hk]; try reflexivity; done].
Defined.

Lemma userIdentity_null_witness :
  is_valid (run anyDatetime (DynamoDBStreamToKinesisRecord unmarshallDecimal)
              (VObj (fieldsOf kinesisRecordA))) = true /\
  is_valid (run anyDatetime (DynamoDBStreamToKinesisRecord unmarshallDecimal)
              (VObj (obj_set "userIdentity" VNull (fieldsOf kinesisRecordA)))) = true.
Proof.
  split; [reflexivity|].
  apply (proj2 (userIdentity_null anyDatetime unmarshallDecimal
                  (fieldsOf kinesisRecordA))).
  reflexivity.
Defined.
